(** * orebunpai: the distributable-amount calculation

    A shallow embedding of the calculation that [test.py] exposes as
    [calculate_distributable_amount] and that [app.py] runs when the
    calculation button is pressed, of the way [app.py] reads its widgets
    and of what its graph tab derives from the stored result, followed by
    the properties of the calculation and of the charts. The two
    calculations are embedded twice: as functions of the input record, and
    statement by statement over a namespace of variables, to show that the
    second computes the first whatever else the namespace holds.

    Python integers are unbounded, so every amount is a [Z] and [+], [-],
    [abs] and the comparisons are exact.  The one place where the code leaves
    the integers is [math.floor(goodwill / 2)]: [/] is true division and
    yields a binary64 float, which is modelled with the IEEE 754
    specification of the standard library ([SpecFloat]). *)

From Stdlib Require Import ZArith Bool Lia List String.
From Stdlib Require Import Floats.SpecFloat.
Import ListNotations.

Local Open Scope Z_scope.

(** ** The Python operations the calculation uses *)

Module Py.

(** The exceptions the built-in operations below can raise. *)
Inductive exn : Type :=
| OverflowError
| ValueError.

(** A computation either raises or returns a value. *)
Definition result (A : Type) : Type := (exn + A)%type.

Definition ret {A : Type} (a : A) : result A := inr a.

Definition raise {A : Type} (e : exn) : result A := inl e.

Definition bind {A B : Type} (c : result A) (k : A -> result B) : result B :=
  match c with
  | inl e => inl e
  | inr a => k a
  end.

(** Python's [float]: IEEE 754 binary64. *)
Definition prec : Z := 53.
Definition emax : Z := 1024.
Definition float : Type := spec_float.

(** [a / 2] on an [int] [a]: the binary64 value nearest to the exact
    quotient [a * 2^-1], ties to even.  CPython raises [OverflowError]
    ("integer division result too large for a float") where the rounded
    quotient is not finite. *)
Definition int_truediv_2 (a : Z) : result float :=
  match binary_normalize prec emax a (-1) false with
  | S754_infinity _ => raise OverflowError
  | S754_nan => raise OverflowError
  | q => ret q
  end.

(** [math.floor(x)] on a [float] [x]: the largest [int] below or equal to
    [x]; [OverflowError] on an infinity and [ValueError] on a NaN.
    A finite float is [(-1)^s * m * 2^e]; [Z.shiftl] by a negative [e]
    is the floor of the division by [2^(-e)]. *)
Definition math_floor (x : float) : result Z :=
  match x with
  | S754_zero _ => ret 0
  | S754_finite s m e => ret (Z.shiftl (cond_Zopp s (Zpos m)) e)
  | S754_infinity _ => raise OverflowError
  | S754_nan => raise ValueError
  end.

(** [abs(a)] on an [int]. *)
Definition abs (a : Z) : Z := Z.abs a.

(** [a // 2] on an [int]: exact floor division. *)
Definition int_floordiv_2 (a : Z) : Z := a / 2.

End Py.

Notation "x <- c ;; k" := (Py.bind c (fun x => k))
  (at level 61, c at next level, right associativity).

(** ** Data model *)

(** The parameters of [calculate_distributable_amount], which are also the
    widget values [app.py] reads before the calculation. *)
Record CalculationInput : Type := mkInput {
  (* net assets at the end of the last fiscal year *)
  capital_stock : Z;
  capital_reserve : Z;
  other_capital_surplus : Z;
  earned_reserve : Z;
  other_retained_earnings : Z;
  treasury_stock : Z;
  (* goodwill and deferred assets *)
  goodwill : Z;
  deferred_assets : Z;
  (* valuation and translation differences *)
  securities_valuation : Z;
  land_revaluation : Z;
  (* disposal and cancellation of treasury stock *)
  disposal_treasury_stock : Z;
  disposal_consideration : Z;
  canceled_treasury_stock : Z;
  (* changes of capital and reserves *)
  capital_reduction : Z;
  reserve_reduction : Z;
  surplus_to_capital : Z;
  (* dividends *)
  dividend_amount : Z;
  dividend_reserve : Z;
  (* interim settlement *)
  interim_settlement : bool;
  interim_profit : Z;
  interim_loss : Z;
  interim_treasury_disposal : Z
}.

(** All parameters at their defaults: [calculate_distributable_amount()]. *)
Definition defaults : CalculationInput :=
  mkInput 0 0 0 0 0 0 0 0 0 0 0 0 0 0 0 0 0 0 false 0 0 0.

(** The dictionary [calculate_distributable_amount] returns: one field per
    key. *)
Module Res.
Record t : Type := mk {
  surplus_amount : Z;
  treasury_stock_adjustments : Z;
  capital_reserve_adjustments : Z;
  dividend_adjustments : Z;
  treasury_stock_abs : Z;
  additional_treasury_adjustments : Z;
  interim_settlement_adjustments : Z;
  goodwill_deferred_deduction : Z;
  valuation_adjustments : Z;
  net_assets_adjustment : Z;
  distributable_amount : Z
}.
End Res.

(** The dictionary [app.py] stores in [st.session_state.results]: the same
    eleven keys, then ten of the inputs. *)
Module SRes.
Record t : Type := mk {
  surplus_amount : Z;
  treasury_stock_adjustments : Z;
  capital_reserve_adjustments : Z;
  dividend_adjustments : Z;
  treasury_stock_abs : Z;
  additional_treasury_adjustments : Z;
  interim_settlement_adjustments : Z;
  goodwill_deferred_deduction : Z;
  valuation_adjustments : Z;
  net_assets_adjustment : Z;
  distributable_amount : Z;
  capital_stock : Z;
  capital_reserve : Z;
  other_capital_surplus : Z;
  earned_reserve : Z;
  other_retained_earnings : Z;
  treasury_stock : Z;
  goodwill : Z;
  deferred_assets : Z;
  securities_valuation : Z;
  land_revaluation : Z
}.
End SRes.

(** ** The calculation *)

(** The statutory floor of the net assets, [min_net_assets] in both files. *)
Definition min_net_assets : Z := 3000000.

(** [math.floor(goodwill / 2)], the expression both files bind to
    [goodwill_adjustment]. *)
Definition goodwill_adjustment (goodwill : Z) : Py.result Z :=
  q <- Py.int_truediv_2 goodwill ;;
  Py.math_floor q.

(** [test.py], [calculate_distributable_amount]. *)
Definition calculate_distributable_amount (i : CalculationInput)
  : Py.result Res.t :=
  (* 1. surplus *)
  let surplus_amount := other_capital_surplus i + other_retained_earnings i in
  (* 2. adjustments of the surplus *)
  let treasury_stock_adjustments :=
    disposal_consideration i - disposal_treasury_stock i
    - canceled_treasury_stock i in
  let capital_reserve_adjustments :=
    capital_reduction i + reserve_reduction i - surplus_to_capital i in
  let dividend_adjustments := - (dividend_amount i + dividend_reserve i) in
  (* 3. treasury stock *)
  let treasury_stock_abs :=
    Py.abs (treasury_stock i) - disposal_treasury_stock i in
  let additional_treasury_adjustments := - disposal_consideration i in
  (* 4. interim settlement *)
  let interim_settlement_adjustments := 0 in
  let interim_settlement_adjustments :=
    if interim_settlement i
    then interim_profit i - interim_loss i + interim_treasury_disposal i
    else interim_settlement_adjustments in
  (* 5. goodwill and deferred assets *)
  goodwill_adjustment <- goodwill_adjustment (goodwill i) ;;
  let deferred_asset_adjustment := deferred_assets i in
  let goodwill_deferred_adjustment :=
    goodwill_adjustment + deferred_asset_adjustment in
  let capital_reserve_total :=
    capital_stock i + capital_reserve i + earned_reserve i in
  let goodwill_deferred_deduction :=
    if goodwill_deferred_adjustment <=? capital_reserve_total then 0
    else if goodwill_deferred_adjustment
            <=? capital_reserve_total + other_capital_surplus i
    then goodwill_deferred_adjustment - capital_reserve_total
    else if goodwill_adjustment
            <=? capital_reserve_total + other_capital_surplus i
    then goodwill_deferred_adjustment - capital_reserve_total
    else other_capital_surplus i + deferred_asset_adjustment in
  (* 6. valuation and translation differences *)
  let valuation_adjustments := 0 in
  let valuation_adjustments :=
    if securities_valuation i <? 0
    then valuation_adjustments - Py.abs (securities_valuation i)
    else valuation_adjustments in
  let valuation_adjustments :=
    if land_revaluation i <? 0
    then valuation_adjustments - Py.abs (land_revaluation i)
    else valuation_adjustments in
  (* 7. keeping net assets of three million *)
  let net_assets :=
    capital_stock i + capital_reserve i + earned_reserve i
    + other_capital_surplus i + other_retained_earnings i
    + treasury_stock i in
  let net_assets_adjustment := 0 in
  let net_assets_adjustment :=
    if net_assets <? min_net_assets
    then min_net_assets - net_assets
    else net_assets_adjustment in
  (* 8. the distributable amount *)
  let distributable_amount :=
    surplus_amount
    + treasury_stock_adjustments
    + capital_reserve_adjustments
    + dividend_adjustments
    - treasury_stock_abs
    + additional_treasury_adjustments
    + interim_settlement_adjustments
    - goodwill_deferred_deduction
    + valuation_adjustments
    - net_assets_adjustment in
  Py.ret (Res.mk
    surplus_amount
    treasury_stock_adjustments
    capital_reserve_adjustments
    dividend_adjustments
    treasury_stock_abs
    additional_treasury_adjustments
    interim_settlement_adjustments
    goodwill_deferred_deduction
    valuation_adjustments
    net_assets_adjustment
    distributable_amount).

(** [app.py]: what the page does with the widget values when the calculation
    button is pressed. *)
Module App.

(** The value of [st.session_state.results]: the placeholder dictionary
    the script installs when the key is missing
    ([retained_earnings], [adjustments], [distributable_amount]), or the
    dictionary of a calculation. *)
Inductive stored : Type :=
| Placeholder
| Stored (r : SRes.t).

Record session_state : Type := mkSession { results : stored }.

Definition initial : session_state := mkSession Placeholder.

(** The body of [if calc_button:] up to the dictionary it builds. *)
Definition calculation (i : CalculationInput) : Py.result SRes.t :=
  let surplus_amount := other_capital_surplus i + other_retained_earnings i in
  let treasury_stock_adjustments :=
    disposal_consideration i
    - disposal_treasury_stock i
    - canceled_treasury_stock i in
  let capital_reserve_adjustments :=
    capital_reduction i + reserve_reduction i - surplus_to_capital i in
  let dividend_adjustments := - (dividend_amount i + dividend_reserve i) in
  let treasury_stock_abs := Py.abs (treasury_stock i) in
  let additional_treasury_adjustments := - disposal_consideration i in
  let interim_settlement_adjustments := 0 in
  let interim_settlement_adjustments :=
    if interim_settlement i
    then interim_profit i - interim_loss i + interim_treasury_disposal i
    else interim_settlement_adjustments in
  goodwill_adjustment <- goodwill_adjustment (goodwill i) ;;
  let deferred_asset_adjustment := deferred_assets i in
  let goodwill_deferred_adjustment :=
    goodwill_adjustment + deferred_asset_adjustment in
  let capital_reserve_total :=
    capital_stock i + capital_reserve i + earned_reserve i in
  let goodwill_deferred_deduction :=
    if goodwill_deferred_adjustment <=? capital_reserve_total then 0
    else if goodwill_deferred_adjustment
            <=? capital_reserve_total + other_capital_surplus i
    then goodwill_deferred_adjustment - capital_reserve_total
    else if goodwill_adjustment
            <=? capital_reserve_total + other_capital_surplus i
    then goodwill_deferred_adjustment - capital_reserve_total
    else other_capital_surplus i + deferred_asset_adjustment in
  let valuation_adjustments := 0 in
  let valuation_adjustments :=
    if securities_valuation i <? 0
    then valuation_adjustments - Py.abs (securities_valuation i)
    else valuation_adjustments in
  let valuation_adjustments :=
    if land_revaluation i <? 0
    then valuation_adjustments - Py.abs (land_revaluation i)
    else valuation_adjustments in
  let net_assets :=
    capital_stock i
    + capital_reserve i
    + earned_reserve i
    + other_capital_surplus i
    + other_retained_earnings i
    + treasury_stock i in
  let net_assets_adjustment := 0 in
  let net_assets_adjustment :=
    if net_assets <? min_net_assets
    then min_net_assets - net_assets
    else net_assets_adjustment in
  let distributable_amount :=
    surplus_amount
    + treasury_stock_adjustments
    + capital_reserve_adjustments
    + dividend_adjustments
    - treasury_stock_abs
    + additional_treasury_adjustments
    + interim_settlement_adjustments
    - goodwill_deferred_deduction
    + valuation_adjustments
    - net_assets_adjustment in
  Py.ret (SRes.mk
    surplus_amount
    treasury_stock_adjustments
    capital_reserve_adjustments
    dividend_adjustments
    treasury_stock_abs
    additional_treasury_adjustments
    interim_settlement_adjustments
    goodwill_deferred_deduction
    valuation_adjustments
    net_assets_adjustment
    distributable_amount
    (capital_stock i)
    (capital_reserve i)
    (other_capital_surplus i)
    (earned_reserve i)
    (other_retained_earnings i)
    (treasury_stock i)
    (goodwill i)
    (deferred_assets i)
    (securities_valuation i)
    (land_revaluation i)).

(** [if calc_button:] as a whole: the dictionary replaces
    [st.session_state.results]; an exception leaves the script before
    the assignment. *)
Definition calc_button (i : CalculationInput) (st : session_state)
  : Py.result session_state :=
  r <- calculation i ;;
  Py.ret (mkSession (Stored r)).

(** The session after a series of presses, oldest first.  A press whose
    calculation raises stores nothing. *)
Fixpoint presses (l : list CalculationInput) (st : session_state)
  : session_state :=
  match l with
  | [] => st
  | i :: l' =>
      match calc_button i st with
      | inr st' => presses l' st'
      | inl _ => presses l' st
      end
  end.

End App.

(** The net assets the floor of three million is compared with. *)
Definition net_assets_of (i : CalculationInput) : Z :=
  capital_stock i + capital_reserve i + earned_reserve i
  + other_capital_surplus i + other_retained_earnings i + treasury_stock i.


(** ** Inputs that differ in named fields

    The keyword-argument overrides the statements below compare:
    [set_f v i] is [i] with field [f] replaced by [v]. *)

Definition set_interim (profit loss disposal : Z) (i : CalculationInput)
  : CalculationInput :=
  mkInput (capital_stock i) (capital_reserve i) (other_capital_surplus i)
          (earned_reserve i) (other_retained_earnings i) (treasury_stock i)
          (goodwill i) (deferred_assets i)
          (securities_valuation i) (land_revaluation i)
          (disposal_treasury_stock i) (disposal_consideration i)
          (canceled_treasury_stock i)
          (capital_reduction i) (reserve_reduction i) (surplus_to_capital i)
          (dividend_amount i) (dividend_reserve i)
          (interim_settlement i) profit loss disposal.

Definition set_valuation (securities land : Z) (i : CalculationInput)
  : CalculationInput :=
  mkInput (capital_stock i) (capital_reserve i) (other_capital_surplus i)
          (earned_reserve i) (other_retained_earnings i) (treasury_stock i)
          (goodwill i) (deferred_assets i)
          securities land
          (disposal_treasury_stock i) (disposal_consideration i)
          (canceled_treasury_stock i)
          (capital_reduction i) (reserve_reduction i) (surplus_to_capital i)
          (dividend_amount i) (dividend_reserve i)
          (interim_settlement i) (interim_profit i) (interim_loss i)
          (interim_treasury_disposal i).

Definition set_disposal_treasury_stock (d : Z) (i : CalculationInput)
  : CalculationInput :=
  mkInput (capital_stock i) (capital_reserve i) (other_capital_surplus i)
          (earned_reserve i) (other_retained_earnings i) (treasury_stock i)
          (goodwill i) (deferred_assets i)
          (securities_valuation i) (land_revaluation i)
          d (disposal_consideration i)
          (canceled_treasury_stock i)
          (capital_reduction i) (reserve_reduction i) (surplus_to_capital i)
          (dividend_amount i) (dividend_reserve i)
          (interim_settlement i) (interim_profit i) (interim_loss i)
          (interim_treasury_disposal i).

Definition set_goodwill (g : Z) (i : CalculationInput) : CalculationInput :=
  mkInput (capital_stock i) (capital_reserve i) (other_capital_surplus i)
          (earned_reserve i) (other_retained_earnings i) (treasury_stock i)
          g (deferred_assets i)
          (securities_valuation i) (land_revaluation i)
          (disposal_treasury_stock i) (disposal_consideration i)
          (canceled_treasury_stock i)
          (capital_reduction i) (reserve_reduction i) (surplus_to_capital i)
          (dividend_amount i) (dividend_reserve i)
          (interim_settlement i) (interim_profit i) (interim_loss i)
          (interim_treasury_disposal i).

(** The distributable amount of an outcome, or the exception it raised. *)
Definition amount (c : Py.result Res.t) : Py.result Z :=
  r <- c ;; Py.ret (Res.distributable_amount r).

Definition stored_amount (c : Py.result SRes.t) : Py.result Z :=
  r <- c ;; Py.ret (SRes.distributable_amount r).

(** ** Inputs of the reference tests and of the boundary cases *)

Definition basic_case : CalculationInput :=
  mkInput 10000000 5000000 3000000 2000000 20000000 (-2000000)
          0 0 0 0 0 0 0 0 0 0 0 0 false 0 0 0.

Definition complex_case : CalculationInput :=
  mkInput 10000000 5000000 3000000 2000000 20000000 (-3000000)
          10000000 2000000 (-1000000) 0
          1000000 1200000 500000
          2000000 1000000 500000
          1500000 150000
          true 3000000 500000 800000.

Definition below_floor_case : CalculationInput :=
  mkInput 2999999 0 0 0 0 0 0 0 0 0 0 0 0 0 0 0 0 0 false 0 0 0.

(** Goodwill of [2^53 + 3] against capital stock of [2^52 + 1]. *)
Definition rounding_case : CalculationInput :=
  mkInput 4503599627370497 0 1 0 0 0
          9007199254740995 0 0 0 0 0 0 0 0 0 0 0 false 0 0 0.

Definition goodwill_case4 : CalculationInput :=
  mkInput 10000000 5000000 3000000 2000000 20000000 0
          50000000 10000000 0 0 0 0 0 0 0 0 0 0 false 0 0 0.

(** ** Reading the widgets ([app.py], the input tab)

    A [CalculationInput] also serves as the record of what the widgets
    hold. *)

(** The sidebar radio [calculation_mode]. *)
Inductive calculation_mode : Type :=
| BasicMode
| DetailedMode.

(** The [min_value] of every [st.number_input] of the input tab; none has
    a [max_value]. *)
Definition widget_bounds (w : CalculationInput) : Prop :=
  0 <= capital_stock w
  /\ 0 <= capital_reserve w
  /\ 0 <= other_capital_surplus w
  /\ 0 <= earned_reserve w
  /\ -1000000000 <= other_retained_earnings w
  /\ -1000000000 <= treasury_stock w
  /\ 0 <= goodwill w
  /\ 0 <= deferred_assets w
  /\ -1000000000 <= securities_valuation w
  /\ -1000000000 <= land_revaluation w
  /\ 0 <= disposal_treasury_stock w
  /\ 0 <= disposal_consideration w
  /\ 0 <= canceled_treasury_stock w
  /\ 0 <= capital_reduction w
  /\ 0 <= reserve_reduction w
  /\ 0 <= surplus_to_capital w
  /\ 0 <= dividend_amount w
  /\ 0 <= dividend_reserve w
  /\ 0 <= interim_profit w
  /\ 0 <= interim_loss w
  /\ 0 <= interim_treasury_disposal w.

(** The variables the script holds when it reaches the button: the ten
    figures of the first two columns in either mode; in the detailed mode
    the changes after the fiscal year end, the three interim amounts being
    read only under the checkbox; in the basic mode the defaults of the
    [else] branch. *)
Definition read_inputs (mode : calculation_mode) (w : CalculationInput)
  : CalculationInput :=
  match mode with
  | DetailedMode =>
      mkInput (capital_stock w) (capital_reserve w) (other_capital_surplus w)
              (earned_reserve w) (other_retained_earnings w)
              (treasury_stock w)
              (goodwill w) (deferred_assets w)
              (securities_valuation w) (land_revaluation w)
              (disposal_treasury_stock w) (disposal_consideration w)
              (canceled_treasury_stock w)
              (capital_reduction w) (reserve_reduction w)
              (surplus_to_capital w)
              (dividend_amount w) (dividend_reserve w)
              (interim_settlement w)
              (if interim_settlement w then interim_profit w else 0)
              (if interim_settlement w then interim_loss w else 0)
              (if interim_settlement w then interim_treasury_disposal w
               else 0)
  | BasicMode =>
      mkInput (capital_stock w) (capital_reserve w) (other_capital_surplus w)
              (earned_reserve w) (other_retained_earnings w)
              (treasury_stock w)
              (goodwill w) (deferred_assets w)
              (securities_valuation w) (land_revaluation w)
              0 0 0 0 0 0 0 0 false 0 0 0
  end.

Definition set_other_retained_earnings (v : Z) (i : CalculationInput)
  : CalculationInput :=
  mkInput (capital_stock i) (capital_reserve i) (other_capital_surplus i)
          (earned_reserve i) v (treasury_stock i)
          (goodwill i) (deferred_assets i)
          (securities_valuation i) (land_revaluation i)
          (disposal_treasury_stock i) (disposal_consideration i)
          (canceled_treasury_stock i)
          (capital_reduction i) (reserve_reduction i) (surplus_to_capital i)
          (dividend_amount i) (dividend_reserve i)
          (interim_settlement i) (interim_profit i) (interim_loss i)
          (interim_treasury_disposal i).

Definition set_disposal_consideration (v : Z) (i : CalculationInput)
  : CalculationInput :=
  mkInput (capital_stock i) (capital_reserve i) (other_capital_surplus i)
          (earned_reserve i) (other_retained_earnings i) (treasury_stock i)
          (goodwill i) (deferred_assets i)
          (securities_valuation i) (land_revaluation i)
          (disposal_treasury_stock i) v
          (canceled_treasury_stock i)
          (capital_reduction i) (reserve_reduction i) (surplus_to_capital i)
          (dividend_amount i) (dividend_reserve i)
          (interim_settlement i) (interim_profit i) (interim_loss i)
          (interim_treasury_disposal i).

Definition set_capital_stock (v : Z) (i : CalculationInput)
  : CalculationInput :=
  mkInput v (capital_reserve i) (other_capital_surplus i)
          (earned_reserve i) (other_retained_earnings i) (treasury_stock i)
          (goodwill i) (deferred_assets i)
          (securities_valuation i) (land_revaluation i)
          (disposal_treasury_stock i) (disposal_consideration i)
          (canceled_treasury_stock i)
          (capital_reduction i) (reserve_reduction i) (surplus_to_capital i)
          (dividend_amount i) (dividend_reserve i)
          (interim_settlement i) (interim_profit i) (interim_loss i)
          (interim_treasury_disposal i).

(** ** The graph tab ([app.py], [with tabs[2]:]) *)

Module View.

(** [int(x)] on a [float] [x]: truncation toward zero; [OverflowError] on
    an infinity and [ValueError] on a NaN. *)
Definition int_of_float (x : Py.float) : Py.result Z :=
  match x with
  | S754_zero _ => Py.ret 0
  | S754_finite s m e => Py.ret (cond_Zopp s (Z.shiftl (Zpos m) e))
  | S754_infinity _ => Py.raise Py.OverflowError
  | S754_nan => Py.raise Py.ValueError
  end.

(** [st.session_state.results.get(key, 0)] for a key of the calculation's
    dictionary, the key being given by its field. The placeholder has none
    of these keys but [distributable_amount], which it maps to 0. *)
Definition get (key : SRes.t -> Z) (s : App.stored) : Z :=
  match s with
  | App.Placeholder => 0
  | App.Stored r => key r
  end.

(** [st.session_state.results.get("distributable_amount", None)], whose
    being [None] hides the charts. *)
Definition get_distributable_amount (s : App.stored) : option Z :=
  match s with
  | App.Placeholder => Some 0
  | App.Stored r => Some (SRes.distributable_amount r)
  end.

(** *** The two pie charts *)

(** The dictionary [components], in insertion order. *)
Definition components (s : App.stored) : list (string * Z) :=
  [ ("その他資本剰余金"%string, get SRes.other_capital_surplus s);
    ("その他利益剰余金"%string, get SRes.other_retained_earnings s);
    ("自己株式の調整"%string,
       - get SRes.treasury_stock_abs s
       + get SRes.additional_treasury_adjustments s);
    ("臨時決算の調整"%string, get SRes.interim_settlement_adjustments s);
    ("のれん等調整額"%string, - get SRes.goodwill_deferred_deduction s);
    ("評価換算差額等"%string, get SRes.valuation_adjustments s);
    ("その他の調整"%string, - get SRes.net_assets_adjustment s) ].

(** [{k: v for k, v in components.items() if v > 0}]. *)
Definition positive_components (c : list (string * Z)) : list (string * Z) :=
  filter (fun kv => snd kv >? 0) c.

(** [{k: abs(v) for k, v in components.items() if v < 0}]. *)
Definition negative_components (c : list (string * Z)) : list (string * Z) :=
  map (fun kv => (fst kv, Py.abs (snd kv)))
      (filter (fun kv => snd kv <? 0) c).

(** The [values=] a pie chart receives, and their sum. *)
Definition values (c : list (string * Z)) : list Z := map snd c.

Definition sum (l : list Z) : Z := fold_right Z.add 0 l.

(** *** The explanation under the goodwill chart *)

Inductive pattern : Type :=
| pattern1
| pattern2
| pattern3
| pattern4.

(** What the explanation is built from: the pattern it selects and the
    amount it prints as the deduction: 0 in pattern 1, [excess_amount] in
    patterns 2 and 3, [final_deduction] in pattern 4. The third bar of the
    chart shows [deduction], the stored value. *)
Record explanation : Type := mkExplanation {
  shown_pattern : pattern;
  explained_deduction : Z;
  deduction_bar : Z
}.

Definition goodwill_explanation (s : App.stored) : Py.result explanation :=
  q <- Py.int_truediv_2 (get SRes.goodwill s) ;;
  goodwill_half <- int_of_float q ;;
  let deferred := get SRes.deferred_assets s in
  let deduction := get SRes.goodwill_deferred_deduction s in
  let capital_stock := get SRes.capital_stock s in
  let capital_reserve := get SRes.capital_reserve s in
  let earned_reserve := get SRes.earned_reserve s in
  let other_capital_surplus := get SRes.other_capital_surplus s in
  let capital_reserves_total :=
    capital_stock + capital_reserve + earned_reserve in
  let goodwill_deferred_total := goodwill_half + deferred in
  let pattern :=
    if goodwill_deferred_total <=? capital_reserves_total then pattern1
    else if goodwill_deferred_total
            <=? capital_reserves_total + other_capital_surplus
    then pattern2
    else if goodwill_half <=? capital_reserves_total + other_capital_surplus
    then pattern3
    else pattern4 in
  match pattern with
  | pattern1 => Py.ret (mkExplanation pattern1 0 deduction)
  | pattern2 =>
      let excess_amount := goodwill_deferred_total - capital_reserves_total in
      Py.ret (mkExplanation pattern2 excess_amount deduction)
  | pattern3 =>
      let excess_amount := goodwill_deferred_total - capital_reserves_total in
      Py.ret (mkExplanation pattern3 excess_amount deduction)
  | pattern4 =>
      let final_deduction := other_capital_surplus + deferred in
      Py.ret (mkExplanation pattern4 final_deduction deduction)
  end.

(** *** The waterfall chart *)

Inductive measure_kind : Type :=
| absolute
| relative
| total.

(** [l[n] = v] on a list, for [n] within the list. *)
Fixpoint assign {A : Type} (l : list A) (n : nat) (v : A) : list A :=
  match l, n with
  | [], _ => []
  | _ :: l', O => v :: l'
  | x :: l', S n' => x :: assign l' n' v
  end.

(** The loop [for i in range(1, len(values) - 1)], over the indices left
    to visit. *)
Fixpoint accumulate (indices : list nat) (values : list (option Z))
    (cumulative : Z) (measure : list measure_kind)
  : Z * list measure_kind :=
  match indices with
  | [] => (cumulative, measure)
  | i :: rest =>
      match nth i values None with
      | Some v => accumulate rest values (cumulative + v) (measure ++ [relative])
      | None => accumulate rest values cumulative measure
      end
  end.

Record waterfall : Type := mkWaterfall {
  steps : list string;
  chart_values : list (option Z);
  chart_measure : list measure_kind;
  final_cumulative : Z
}.

Definition waterfall_chart (s : App.stored) : waterfall :=
  let base_surplus := get SRes.surplus_amount s in
  let treasury_adj := get SRes.treasury_stock_adjustments s in
  let capital_adj := get SRes.capital_reserve_adjustments s in
  let dividend_adj := get SRes.dividend_adjustments s in
  let treasury_book := - get SRes.treasury_stock_abs s in
  let disposal_adj := get SRes.additional_treasury_adjustments s in
  let interim_adj := get SRes.interim_settlement_adjustments s in
  let goodwill_adj := - get SRes.goodwill_deferred_deduction s in
  let valuation_adj := get SRes.valuation_adjustments s in
  let net_assets_adj := - get SRes.net_assets_adjustment s in
  let final := get SRes.distributable_amount s in
  let steps :=
    [ "剰余金の額"; "自己株式処分・消却"; "資本金・準備金調整"; "配当修正";
      "自己株式帳簿価額"; "自己株式処分対価"; "臨時決算調整";
      "のれん等調整額"; "評価換算差額等"; "純資産300万円維持";
      "分配可能額" ]%string in
  let values :=
    [ Some base_surplus; Some treasury_adj; Some capital_adj;
      Some dividend_adj; Some treasury_book; Some disposal_adj;
      Some interim_adj; Some goodwill_adj; Some valuation_adj;
      Some net_assets_adj; None ] in
  let cumulative := base_surplus in
  let measure := [absolute] in
  let '(cumulative, measure) :=
    accumulate (seq 1 (List.length values - 1 - 1)) values cumulative measure in
  let measure := measure ++ [total] in
  let values := assign values (List.length values - 1) (Some final) in
  mkWaterfall steps values measure cumulative.

End View.

(** ** The two programs statement by statement

    The same two pieces of code once more, this time as Python runs them:
    every assignment binds a name in a namespace and every use of a
    variable looks the name up there. *)

Module Exec.

(** The values a name is bound to: [int] and [bool]. *)
Inductive value : Type :=
| VInt (z : Z)
| VBool (b : bool).

(** A [bool] used as a number is 0 or 1; a number used as a condition is
    true unless it is 0. *)
Definition as_int (v : value) : Z :=
  match v with
  | VInt z => z
  | VBool b => if b then 1 else 0
  end.

Definition truth (v : value) : bool :=
  match v with
  | VInt z => negb (z =? 0)
  | VBool b => b
  end.

(** A namespace: the locals of a call, or the globals of the script. *)
Definition namespace : Type := string -> option value.

Definition bind_name (x : string) (v : value) (ns : namespace) : namespace :=
  fun y => if String.eqb y x then Some v else ns y.

(** The names of [top], and under them whatever [rest] binds. *)
Definition over (top rest : namespace) : namespace :=
  fun y =>
    match top y with
    | Some v => Some v
    | None => rest y
    end.

(** An exception of the operations of [Py], or the use of a name that is
    not bound. *)
Inductive exn : Type :=
| Raised (e : Py.exn)
| NameError (x : string).

(** A piece of code: it raises, or it yields a value and the namespace it
    leaves behind. *)
Definition code (A : Type) : Type := namespace -> exn + (A * namespace).

Definition ret {A : Type} (a : A) : code A := fun ns => inr (a, ns).

Definition bind {A B : Type} (c : code A) (k : A -> code B) : code B :=
  fun ns =>
    match c ns with
    | inl e => inl e
    | inr (a, ns') => k a ns'
    end.

Definition lift {A : Type} (c : Py.result A) : code A :=
  fun ns =>
    match c with
    | inl e => inl (Raised e)
    | inr a => inr (a, ns)
    end.

Declare Scope exec_scope.
Delimit Scope exec_scope with exec.

Notation "x <~ c ;; k" := (bind c (fun x => k))
  (at level 61, c at next level, right associativity) : exec_scope.
Notation "c ;;; k" := (bind c (fun _ => k))
  (at level 61, right associativity) : exec_scope.

Local Open Scope exec_scope.

(** Expressions. *)
Definition var (x : string) : code Z :=
  fun ns =>
    match ns x with
    | Some v => inr (as_int v, ns)
    | None => inl (NameError x)
    end.

Definition cond (x : string) : code bool :=
  fun ns =>
    match ns x with
    | Some v => inr (truth v, ns)
    | None => inl (NameError x)
    end.

Definition lit (z : Z) : code Z := ret z.

Definition add (e1 e2 : code Z) : code Z :=
  a <~ e1 ;; b <~ e2 ;; ret (a + b).

Definition sub (e1 e2 : code Z) : code Z :=
  a <~ e1 ;; b <~ e2 ;; ret (a - b).

Definition neg (e : code Z) : code Z :=
  a <~ e ;; ret (- a).

Definition abs (e : code Z) : code Z :=
  a <~ e ;; ret (Py.abs a).

Definition le (e1 e2 : code Z) : code bool :=
  a <~ e1 ;; b <~ e2 ;; ret (a <=? b).

Definition lt (e1 e2 : code Z) : code bool :=
  a <~ e1 ;; b <~ e2 ;; ret (a <? b).

(** [math.floor(e / 2)]. *)
Definition floor_of_half (e : code Z) : code Z :=
  a <~ e ;; lift (goodwill_adjustment a).

(** Statements. *)
Definition assign (x : string) (e : code Z) : code unit :=
  v <~ e ;; fun ns => inr (tt, bind_name x (VInt v) ns).

Definition if_else (c : code bool) (s1 s2 : code unit) : code unit :=
  b <~ c ;; if b then s1 else s2.

Definition pass : code unit := ret tt.

Infix ".+" := add (at level 50, left associativity) : exec_scope.
Infix ".-" := sub (at level 50, left associativity) : exec_scope.
Infix ".<=" := le (at level 55) : exec_scope.
Infix ".<" := lt (at level 55) : exec_scope.
Notation "x ::= e" := (assign x e) (at level 60) : exec_scope.

Local Open Scope string_scope.

(** [test.py], the body of [calculate_distributable_amount]. *)
Definition calculate_distributable_amount : code Res.t :=
  "surplus_amount" ::=
    var "other_capital_surplus" .+ var "other_retained_earnings" ;;;
  "treasury_stock_adjustments" ::=
    var "disposal_consideration" .- var "disposal_treasury_stock"
    .- var "canceled_treasury_stock" ;;;
  "capital_reserve_adjustments" ::=
    var "capital_reduction" .+ var "reserve_reduction"
    .- var "surplus_to_capital" ;;;
  "dividend_adjustments" ::=
    neg (var "dividend_amount" .+ var "dividend_reserve") ;;;
  "treasury_stock_abs" ::=
    abs (var "treasury_stock") .- var "disposal_treasury_stock" ;;;
  "additional_treasury_adjustments" ::= neg (var "disposal_consideration") ;;;
  "interim_settlement_adjustments" ::= lit 0 ;;;
  if_else (cond "interim_settlement")
    ("interim_settlement_adjustments" ::=
       var "interim_profit" .- var "interim_loss"
       .+ var "interim_treasury_disposal")
    pass ;;;
  "goodwill_adjustment" ::= floor_of_half (var "goodwill") ;;;
  "deferred_asset_adjustment" ::= var "deferred_assets" ;;;
  "goodwill_deferred_adjustment" ::=
    var "goodwill_adjustment" .+ var "deferred_asset_adjustment" ;;;
  "capital_reserve_total" ::=
    var "capital_stock" .+ var "capital_reserve" .+ var "earned_reserve" ;;;
  if_else (var "goodwill_deferred_adjustment" .<= var "capital_reserve_total")
    ("goodwill_deferred_deduction" ::= lit 0)
    (if_else (var "goodwill_deferred_adjustment"
              .<= var "capital_reserve_total" .+ var "other_capital_surplus")
       ("goodwill_deferred_deduction" ::=
          var "goodwill_deferred_adjustment" .- var "capital_reserve_total")
       (if_else (var "goodwill_adjustment"
                 .<= var "capital_reserve_total"
                     .+ var "other_capital_surplus")
          ("goodwill_deferred_deduction" ::=
             var "goodwill_deferred_adjustment"
             .- var "capital_reserve_total")
          ("goodwill_deferred_deduction" ::=
             var "other_capital_surplus"
             .+ var "deferred_asset_adjustment"))) ;;;
  "valuation_adjustments" ::= lit 0 ;;;
  if_else (var "securities_valuation" .< lit 0)
    ("valuation_adjustments" ::=
       var "valuation_adjustments" .- abs (var "securities_valuation"))
    pass ;;;
  if_else (var "land_revaluation" .< lit 0)
    ("valuation_adjustments" ::=
       var "valuation_adjustments" .- abs (var "land_revaluation"))
    pass ;;;
  "min_net_assets" ::= lit 3000000 ;;;
  "net_assets" ::=
    var "capital_stock" .+ var "capital_reserve" .+ var "earned_reserve"
    .+ var "other_capital_surplus" .+ var "other_retained_earnings"
    .+ var "treasury_stock" ;;;
  "net_assets_adjustment" ::= lit 0 ;;;
  if_else (var "net_assets" .< var "min_net_assets")
    ("net_assets_adjustment" ::= var "min_net_assets" .- var "net_assets")
    pass ;;;
  "distributable_amount" ::=
    var "surplus_amount"
    .+ var "treasury_stock_adjustments"
    .+ var "capital_reserve_adjustments"
    .+ var "dividend_adjustments"
    .- var "treasury_stock_abs"
    .+ var "additional_treasury_adjustments"
    .+ var "interim_settlement_adjustments"
    .- var "goodwill_deferred_deduction"
    .+ var "valuation_adjustments"
    .- var "net_assets_adjustment" ;;;
  a1 <~ var "surplus_amount" ;;
  a2 <~ var "treasury_stock_adjustments" ;;
  a3 <~ var "capital_reserve_adjustments" ;;
  a4 <~ var "dividend_adjustments" ;;
  a5 <~ var "treasury_stock_abs" ;;
  a6 <~ var "additional_treasury_adjustments" ;;
  a7 <~ var "interim_settlement_adjustments" ;;
  a8 <~ var "goodwill_deferred_deduction" ;;
  a9 <~ var "valuation_adjustments" ;;
  a10 <~ var "net_assets_adjustment" ;;
  a11 <~ var "distributable_amount" ;;
  ret (Res.mk a1 a2 a3 a4 a5 a6 a7 a8 a9 a10 a11).

(** [app.py], the body of [if calc_button:] up to the dictionary. *)
Definition calc_button : code SRes.t :=
  "surplus_amount" ::=
    var "other_capital_surplus" .+ var "other_retained_earnings" ;;;
  "treasury_stock_adjustments" ::=
    var "disposal_consideration" .- var "disposal_treasury_stock"
    .- var "canceled_treasury_stock" ;;;
  "capital_reserve_adjustments" ::=
    var "capital_reduction" .+ var "reserve_reduction"
    .- var "surplus_to_capital" ;;;
  "dividend_adjustments" ::=
    neg (var "dividend_amount" .+ var "dividend_reserve") ;;;
  "treasury_stock_abs" ::= abs (var "treasury_stock") ;;;
  "additional_treasury_adjustments" ::= neg (var "disposal_consideration") ;;;
  "interim_settlement_adjustments" ::= lit 0 ;;;
  if_else (cond "interim_settlement")
    ("interim_settlement_adjustments" ::=
       var "interim_profit" .- var "interim_loss"
       .+ var "interim_treasury_disposal")
    pass ;;;
  "goodwill_adjustment" ::= floor_of_half (var "goodwill") ;;;
  "deferred_asset_adjustment" ::= var "deferred_assets" ;;;
  "goodwill_deferred_adjustment" ::=
    var "goodwill_adjustment" .+ var "deferred_asset_adjustment" ;;;
  "capital_reserve_total" ::=
    var "capital_stock" .+ var "capital_reserve" .+ var "earned_reserve" ;;;
  if_else (var "goodwill_deferred_adjustment" .<= var "capital_reserve_total")
    ("goodwill_deferred_deduction" ::= lit 0)
    (if_else (var "goodwill_deferred_adjustment"
              .<= var "capital_reserve_total" .+ var "other_capital_surplus")
       ("goodwill_deferred_deduction" ::=
          var "goodwill_deferred_adjustment" .- var "capital_reserve_total")
       (if_else (var "goodwill_adjustment"
                 .<= var "capital_reserve_total"
                     .+ var "other_capital_surplus")
          ("goodwill_deferred_deduction" ::=
             var "goodwill_deferred_adjustment"
             .- var "capital_reserve_total")
          ("goodwill_deferred_deduction" ::=
             var "other_capital_surplus"
             .+ var "deferred_asset_adjustment"))) ;;;
  "valuation_adjustments" ::= lit 0 ;;;
  if_else (var "securities_valuation" .< lit 0)
    ("valuation_adjustments" ::=
       var "valuation_adjustments" .- abs (var "securities_valuation"))
    pass ;;;
  if_else (var "land_revaluation" .< lit 0)
    ("valuation_adjustments" ::=
       var "valuation_adjustments" .- abs (var "land_revaluation"))
    pass ;;;
  "min_net_assets" ::= lit 3000000 ;;;
  "net_assets" ::=
    var "capital_stock" .+ var "capital_reserve" .+ var "earned_reserve"
    .+ var "other_capital_surplus" .+ var "other_retained_earnings"
    .+ var "treasury_stock" ;;;
  "net_assets_adjustment" ::= lit 0 ;;;
  if_else (var "net_assets" .< var "min_net_assets")
    ("net_assets_adjustment" ::= var "min_net_assets" .- var "net_assets")
    pass ;;;
  "distributable_amount" ::=
    var "surplus_amount"
    .+ var "treasury_stock_adjustments"
    .+ var "capital_reserve_adjustments"
    .+ var "dividend_adjustments"
    .- var "treasury_stock_abs"
    .+ var "additional_treasury_adjustments"
    .+ var "interim_settlement_adjustments"
    .- var "goodwill_deferred_deduction"
    .+ var "valuation_adjustments"
    .- var "net_assets_adjustment" ;;;
  a1 <~ var "surplus_amount" ;;
  a2 <~ var "treasury_stock_adjustments" ;;
  a3 <~ var "capital_reserve_adjustments" ;;
  a4 <~ var "dividend_adjustments" ;;
  a5 <~ var "treasury_stock_abs" ;;
  a6 <~ var "additional_treasury_adjustments" ;;
  a7 <~ var "interim_settlement_adjustments" ;;
  a8 <~ var "goodwill_deferred_deduction" ;;
  a9 <~ var "valuation_adjustments" ;;
  a10 <~ var "net_assets_adjustment" ;;
  a11 <~ var "distributable_amount" ;;
  b1 <~ var "capital_stock" ;;
  b2 <~ var "capital_reserve" ;;
  b3 <~ var "other_capital_surplus" ;;
  b4 <~ var "earned_reserve" ;;
  b5 <~ var "other_retained_earnings" ;;
  b6 <~ var "treasury_stock" ;;
  b7 <~ var "goodwill" ;;
  b8 <~ var "deferred_assets" ;;
  b9 <~ var "securities_valuation" ;;
  b10 <~ var "land_revaluation" ;;
  ret (SRes.mk a1 a2 a3 a4 a5 a6 a7 a8 a9 a10 a11
               b1 b2 b3 b4 b5 b6 b7 b8 b9 b10).

(** The twenty-two input names bound to the values of [i] and nothing
    else: the parameters of a call of [calculate_distributable_amount], and
    the variables [app.py] has assigned from its widgets. *)
Definition inputs (i : CalculationInput) : namespace :=
  bind_name "capital_stock" (VInt (capital_stock i))
  (bind_name "capital_reserve" (VInt (capital_reserve i))
  (bind_name "other_capital_surplus" (VInt (other_capital_surplus i))
  (bind_name "earned_reserve" (VInt (earned_reserve i))
  (bind_name "other_retained_earnings" (VInt (other_retained_earnings i))
  (bind_name "treasury_stock" (VInt (treasury_stock i))
  (bind_name "goodwill" (VInt (goodwill i))
  (bind_name "deferred_assets" (VInt (deferred_assets i))
  (bind_name "securities_valuation" (VInt (securities_valuation i))
  (bind_name "land_revaluation" (VInt (land_revaluation i))
  (bind_name "disposal_treasury_stock" (VInt (disposal_treasury_stock i))
  (bind_name "disposal_consideration" (VInt (disposal_consideration i))
  (bind_name "canceled_treasury_stock" (VInt (canceled_treasury_stock i))
  (bind_name "capital_reduction" (VInt (capital_reduction i))
  (bind_name "reserve_reduction" (VInt (reserve_reduction i))
  (bind_name "surplus_to_capital" (VInt (surplus_to_capital i))
  (bind_name "dividend_amount" (VInt (dividend_amount i))
  (bind_name "dividend_reserve" (VInt (dividend_reserve i))
  (bind_name "interim_settlement" (VBool (interim_settlement i))
  (bind_name "interim_profit" (VInt (interim_profit i))
  (bind_name "interim_loss" (VInt (interim_loss i))
  (bind_name "interim_treasury_disposal"
             (VInt (interim_treasury_disposal i))
             (fun _ => None)))))))))))))))))))))).

(** What a piece of code yields, the namespace forgotten. *)
Definition outcome {A : Type} (r : exn + (A * namespace)) : exn + A :=
  match r with
  | inl e => inl e
  | inr (a, _) => inr a
  end.

(** A call of [calculate_distributable_amount] with the arguments [i]. The
    locals of a call start with the parameters alone; [leftover] stands
    for anything else the namespace might have held. *)
Definition call (i : CalculationInput) (leftover : namespace)
  : exn + Res.t :=
  outcome (calculate_distributable_amount (over (inputs i) leftover)).

(** The exceptions of [Py] among those of a piece of code. *)
Definition raised {A : Type} (c : Py.result A) : exn + A :=
  match c with
  | inl e => inl (Raised e)
  | inr a => inr a
  end.

(** A press of the button in a script whose globals are [ns] and whose
    session is [st]: the dictionary is built from the globals and assigned
    to [st.session_state.results]. *)
Definition press (ns : namespace) (st : App.session_state)
  : exn + App.session_state :=
  match calc_button ns with
  | inl e => inl e
  | inr (r, _) => inr (App.mkSession (App.Stored r))
  end.

End Exec.

(** * Properties *)

(** ** The scenarios of the reference tests, run on the model *)

Example test_zero_values :
  option_map Res.distributable_amount
    (match calculate_distributable_amount defaults with
     | inr r => Some r | inl _ => None end) = Some (-3000000).
Proof. reflexivity. Qed.

Example test_basic_case :
  calculate_distributable_amount basic_case
  = inr (Res.mk 23000000 0 0 0 2000000 0 0 0 0 0 21000000).
Proof. reflexivity. Qed.

Example test_complex_case :
  calculate_distributable_amount complex_case
  = inr (Res.mk 23000000 (-300000) 2500000 (-1650000) 2000000 (-1200000)
           3300000 0 (-1000000) 0 22650000).
Proof. reflexivity. Qed.

Example test_goodwill_case4 :
  match calculate_distributable_amount goodwill_case4 with
  | inr r => Res.goodwill_deferred_deduction r = 13000000
  | inl _ => False
  end.
Proof. reflexivity. Qed.

(** ** Binary64 rounding of small integers

    An integer of magnitude below [2^53] has at most 53 significant bits,
    so halving it is exact in binary64 and [math.floor] recovers the floor
    of the exact half. *)

Lemma digits2_pos_bounds (p : positive) :
  2 ^ (Zpos (digits2_pos p) - 1) <= Zpos p < 2 ^ Zpos (digits2_pos p).
Proof.
  induction p as [p IH | p IH | ]; cbn [digits2_pos].
  - rewrite Pos2Z.inj_succ.
    replace (Z.succ (Zpos (digits2_pos p)) - 1) with (Z.succ (Zpos (digits2_pos p) - 1)) by lia.
    rewrite !Z.pow_succ_r by lia. lia.
  - rewrite Pos2Z.inj_succ.
    replace (Z.succ (Zpos (digits2_pos p)) - 1) with (Z.succ (Zpos (digits2_pos p) - 1)) by lia.
    rewrite !Z.pow_succ_r by lia. lia.
  - cbn. lia.
Qed.


Lemma iter_xO_spec (k p : positive) :
  Zpos (Pos.iter xO p k) = Zpos p * 2 ^ Zpos k
  /\ digits2_pos (Pos.iter xO p k) = (digits2_pos p + k)%positive.
Proof.
  induction k as [ | k IH] using Pos.peano_ind.
  - cbn [Pos.iter]. split; [ lia | rewrite Pos.add_1_r; reflexivity ].
  - rewrite Pos.iter_succ. destruct IH as [IHv IHd]. split.
    + rewrite Pos2Z.inj_xO, IHv, Pos2Z.inj_succ, Z.pow_succ_r by lia. lia.
    + cbn [digits2_pos]. rewrite IHd. lia.
Qed.

Lemma binary_round_aux_exact (s : bool) (m : positive) (e : Z) :
  Zpos (digits2_pos m) = 53 -> -1074 <= e <= 971 ->
  binary_round_aux 53 1024 s (Zpos m) e loc_Exact = S754_finite s m e.
Proof.
  intros Hd He.
  assert (Hs : shr_fexp 53 1024 (Zpos m) e loc_Exact
               = (Build_shr_record (Zpos m) false false, e)).
  { unfold shr_fexp, fexp, emin. cbn [Zdigits2 shr_record_of_loc]. rewrite Hd.
    replace (Z.max (53 + e - 53) (3 - 1024 - 53) - e) with 0 by lia.
    reflexivity. }
  unfold binary_round_aux. rewrite Hs.
  cbn [shr_m loc_of_shr_record round_nearest_even]. rewrite Hs.
  cbn [shr_m]. 
  replace (e <=? 1024 - 53) with true by (symmetry; apply Z.leb_le; lia).
  reflexivity.
Qed.

Lemma binary_round_small (s : bool) (p : positive) :
  Zpos p < 2 ^ 53 ->
  exists m e, binary_round 53 1024 s p (-1) = S754_finite s m e
              /\ e < 0 /\ Zpos m = Zpos p * 2 ^ (- e - 1).
Proof.
  intros Hp.
  pose proof (digits2_pos_bounds p) as [Hlo _].
  assert (Hd : Zpos (digits2_pos p) <= 53).
  { destruct (Z.le_gt_cases (Zpos (digits2_pos p)) 53) as [ | Hgt]; [ assumption | ].
    exfalso. assert (2 ^ 53 <= 2 ^ (Zpos (digits2_pos p) - 1))
      by (apply Z.pow_le_mono_r; lia). lia. }
  unfold binary_round, fexp, emin, shl_align.
  replace (Z.max (Zpos (digits2_pos p) + -1 - 53) (3 - 1024 - 53))
    with (Zpos (digits2_pos p) - 54) by lia.
  destruct (Zpos (digits2_pos p) - 54 - -1) as [ | k | k ] eqn:Hk.
  - exists p, (-1). split; [ | split; [ lia | cbn; lia ] ].
    apply binary_round_aux_exact; lia.
  - lia.
  - destruct (iter_xO_spec k p) as [Hv Hdig].
    exists (Pos.iter xO p k), (Zpos (digits2_pos p) - 54).
    split; [ | split; [ lia | ] ].
    + apply binary_round_aux_exact; [ rewrite Hdig | ]; lia.
    + rewrite Hv. f_equal. f_equal. lia.
Qed.

Lemma shiftl_half (a k e : Z) :
  e < 0 -> k = 2 ^ (- e - 1) -> Z.shiftl (a * k) e = a / 2.
Proof.
  intros He ->.
  remember (- e - 1) as j eqn:Hj.
  assert (He' : e = - Z.succ j) by lia.
  assert (0 <= j) by lia.
  rewrite He', Z.shiftl_opp_r, Z.shiftr_div_pow2 by lia.
  rewrite Z.pow_succ_r by lia.
  apply Z.div_mul_cancel_r; [ lia | ].
  apply Z.pow_nonzero; lia.
Qed.

Lemma goodwill_adjustment_exact (n : Z) :
  - 2 ^ 53 < n < 2 ^ 53 -> goodwill_adjustment n = inr (n / 2).
Proof.
  intros Hn. unfold goodwill_adjustment, Py.int_truediv_2.
  destruct n as [ | p | p ]; cbn [binary_normalize].
  - reflexivity.
  - destruct (binary_round_small false p) as (m & e & Hr & He & Hm); [ lia | ].
    change (binary_round Py.prec Py.emax false p (-1))
      with (binary_round 53 1024 false p (-1)).
    rewrite Hr. cbn [Py.bind Py.ret Py.math_floor cond_Zopp]. unfold Py.ret.
    f_equal. rewrite Hm. apply shiftl_half; [ lia | reflexivity ].
  - destruct (binary_round_small true p) as (m & e & Hr & He & Hm); [ lia | ].
    change (binary_round Py.prec Py.emax true p (-1))
      with (binary_round 53 1024 true p (-1)).
    rewrite Hr. cbn [Py.bind Py.ret Py.math_floor cond_Zopp]. unfold Py.ret.
    f_equal.
    replace (- Zpos m) with (Zneg p * 2 ^ (- e - 1)) by (rewrite Hm; lia).
    apply shiftl_half; [ lia | reflexivity ].
Qed.

(** Within that range neither calculation can raise. *)
Lemma calculation_returns (i : CalculationInput) :
  - 2 ^ 53 < goodwill i < 2 ^ 53 ->
  (exists r, App.calculation i = inr r)
  /\ (exists r, calculate_distributable_amount i = inr r).
Proof.
  intros Hg. unfold App.calculation, calculate_distributable_amount.
  rewrite (goodwill_adjustment_exact _ Hg). cbn [Py.bind Py.ret].
  split; eexists; reflexivity.
Qed.

(** ** Proof steps shared by the statements *)

Lemma inr_inj {A B : Type} (a b : B) : @inr A B a = inr b -> a = b.
Proof. intros H. injection H as ->. reflexivity. Qed.

(** From "the calculation returned [r]" to the value of [goodwill_adjustment]
    and the fields of [r]. *)
Ltac returned H :=
  unfold calculate_distributable_amount, App.calculation in H;
  let ga := fresh "ga" in
  let Hga := fresh "Hga" in
  destruct (goodwill_adjustment _) as [ ? | ga ] eqn:Hga;
  cbn [Py.bind Py.ret] in H; [ discriminate H | ];
  apply inr_inj in H;
  match type of H with _ = ?r => subst r end;
  cbn [Res.surplus_amount Res.treasury_stock_adjustments
       Res.capital_reserve_adjustments Res.dividend_adjustments
       Res.treasury_stock_abs Res.additional_treasury_adjustments
       Res.interim_settlement_adjustments Res.goodwill_deferred_deduction
       Res.valuation_adjustments Res.net_assets_adjustment
       Res.distributable_amount
       SRes.surplus_amount SRes.treasury_stock_adjustments
       SRes.capital_reserve_adjustments SRes.dividend_adjustments
       SRes.treasury_stock_abs SRes.additional_treasury_adjustments
       SRes.interim_settlement_adjustments SRes.goodwill_deferred_deduction
       SRes.valuation_adjustments SRes.net_assets_adjustment
       SRes.distributable_amount].

(** Case split on every integer test left in the goal. *)
Ltac split_tests :=
  unfold Py.abs, min_net_assets in *;
  repeat match goal with
         | |- context [ ?a <? ?b ] => destruct (Z.ltb_spec a b)
         | |- context [ ?a <=? ?b ] => destruct (Z.leb_spec a b)
         end.

(** ** Properties of the calculation *)

(** C1. Internal consistency: in the dictionary a calculation returns,
    [distributable_amount] is the sum of the ten returned terms with the
    signs of the final step; stated for the dictionary [app.py] stores and
    for the one [test.py] returns. *)
Theorem distributable_amount_is_sum_of_terms (i : CalculationInput) :
  (forall r, App.calculation i = inr r ->
     SRes.distributable_amount r
     = SRes.surplus_amount r
       + SRes.treasury_stock_adjustments r
       + SRes.capital_reserve_adjustments r
       + SRes.dividend_adjustments r
       - SRes.treasury_stock_abs r
       + SRes.additional_treasury_adjustments r
       + SRes.interim_settlement_adjustments r
       - SRes.goodwill_deferred_deduction r
       + SRes.valuation_adjustments r
       - SRes.net_assets_adjustment r)
  /\ (forall r, calculate_distributable_amount i = inr r ->
     Res.distributable_amount r
     = Res.surplus_amount r
       + Res.treasury_stock_adjustments r
       + Res.capital_reserve_adjustments r
       + Res.dividend_adjustments r
       - Res.treasury_stock_abs r
       + Res.additional_treasury_adjustments r
       + Res.interim_settlement_adjustments r
       - Res.goodwill_deferred_deduction r
       + Res.valuation_adjustments r
       - Res.net_assets_adjustment r).
Proof.
  split; intros r H; returned H; reflexivity.
Qed.

Lemma distributable_amount_is_sum_of_terms_witness :
  (exists r, App.calculation complex_case = inr r
     /\ SRes.distributable_amount r
        = SRes.surplus_amount r
          + SRes.treasury_stock_adjustments r
          + SRes.capital_reserve_adjustments r
          + SRes.dividend_adjustments r
          - SRes.treasury_stock_abs r
          + SRes.additional_treasury_adjustments r
          + SRes.interim_settlement_adjustments r
          - SRes.goodwill_deferred_deduction r
          + SRes.valuation_adjustments r
          - SRes.net_assets_adjustment r)
  /\ (exists r, calculate_distributable_amount complex_case = inr r
     /\ Res.distributable_amount r
        = Res.surplus_amount r
          + Res.treasury_stock_adjustments r
          + Res.capital_reserve_adjustments r
          + Res.dividend_adjustments r
          - Res.treasury_stock_abs r
          + Res.additional_treasury_adjustments r
          + Res.interim_settlement_adjustments r
          - Res.goodwill_deferred_deduction r
          + Res.valuation_adjustments r
          - Res.net_assets_adjustment r).
Proof.
  split; eexists; (split; [ reflexivity | ]).
  - apply (proj1 (distributable_amount_is_sum_of_terms complex_case)).
    reflexivity.
  - apply (proj2 (distributable_amount_is_sum_of_terms complex_case)).
    reflexivity.
Defined.



(** The reference calculation of [test.py] subtracts the disposed treasury
    stock from the absolute value. *)
Lemma reference_treasury_stock_abs (i : CalculationInput) (r : Res.t) :
  calculate_distributable_amount i = inr r ->
  Res.treasury_stock_abs r
  = Z.abs (treasury_stock i) - disposal_treasury_stock i
  /\ Res.additional_treasury_adjustments r = - disposal_consideration i.
Proof.
  intros H. returned H. split; reflexivity.
Qed.

(** C4. The returned [net_assets_adjustment] is the shortfall of the net
    assets below 3,000,000 and 0 when there is none; hence it is never
    negative, it is 0 at net assets of exactly 3,000,000 and 1 at
    2,999,999. Stated for both dictionaries. *)
Theorem net_assets_adjustment_is_shortfall (i : CalculationInput) :
  (forall r, App.calculation i = inr r ->
     SRes.net_assets_adjustment r
     = (if net_assets_of i <? 3000000 then 3000000 - net_assets_of i else 0)
     /\ 0 <= SRes.net_assets_adjustment r
     /\ (net_assets_of i = 3000000 -> SRes.net_assets_adjustment r = 0)
     /\ (net_assets_of i = 2999999 -> SRes.net_assets_adjustment r = 1))
  /\ (forall r, calculate_distributable_amount i = inr r ->
     Res.net_assets_adjustment r
     = (if net_assets_of i <? 3000000 then 3000000 - net_assets_of i else 0)
     /\ 0 <= Res.net_assets_adjustment r
     /\ (net_assets_of i = 3000000 -> Res.net_assets_adjustment r = 0)
     /\ (net_assets_of i = 2999999 -> Res.net_assets_adjustment r = 1)).
Proof.
  split; intros r H; returned H; unfold net_assets_of;
    split_tests; repeat split; intros; lia.
Qed.

Lemma net_assets_adjustment_is_shortfall_witness :
  (exists r, App.calculation below_floor_case = inr r
     /\ SRes.net_assets_adjustment r = 1 /\ 0 <= SRes.net_assets_adjustment r)
  /\ (exists r, calculate_distributable_amount below_floor_case = inr r
     /\ Res.net_assets_adjustment r = 1 /\ 0 <= Res.net_assets_adjustment r).
Proof.
  split; eexists; (split; [ reflexivity | ]).
  - destruct (proj1 (net_assets_adjustment_is_shortfall below_floor_case)
                _ eq_refl) as (_ & Hpos & _ & Hone).
    split; [ apply Hone; reflexivity | exact Hpos ].
  - destruct (proj2 (net_assets_adjustment_is_shortfall below_floor_case)
                _ eq_refl) as (_ & Hpos & _ & Hone).
    split; [ apply Hone; reflexivity | exact Hpos ].
Defined.

(** C5. The returned [valuation_adjustments] is the sum of the negative
    parts of the two valuation differences, so it is never positive; and
    replacing valuation differences that are not negative by other values
    that are not negative leaves the distributable amount as it was.
    Stated for both calculations. *)
Theorem valuation_adjustments_negative_parts (i : CalculationInput) :
  (forall r, App.calculation i = inr r ->
     SRes.valuation_adjustments r
     = (if securities_valuation i <? 0 then securities_valuation i else 0)
       + (if land_revaluation i <? 0 then land_revaluation i else 0)
     /\ SRes.valuation_adjustments r <= 0)
  /\ (forall r, calculate_distributable_amount i = inr r ->
     Res.valuation_adjustments r
     = (if securities_valuation i <? 0 then securities_valuation i else 0)
       + (if land_revaluation i <? 0 then land_revaluation i else 0)
     /\ Res.valuation_adjustments r <= 0)
  /\ (forall s l,
     (s = securities_valuation i \/ 0 <= securities_valuation i /\ 0 <= s) ->
     (l = land_revaluation i \/ 0 <= land_revaluation i /\ 0 <= l) ->
     stored_amount (App.calculation (set_valuation s l i))
     = stored_amount (App.calculation i)
     /\ amount (calculate_distributable_amount (set_valuation s l i))
        = amount (calculate_distributable_amount i)).
Proof.
  split; [ | split ].
  - intros r H; returned H. split_tests; split; lia.
  - intros r H; returned H. split_tests; split; lia.
  - intros s l Hs Hl.
    unfold stored_amount, amount, App.calculation,
      calculate_distributable_amount, set_valuation.
    cbn [capital_stock capital_reserve other_capital_surplus earned_reserve
         other_retained_earnings treasury_stock goodwill deferred_assets
         securities_valuation land_revaluation disposal_treasury_stock
         disposal_consideration canceled_treasury_stock capital_reduction
         reserve_reduction surplus_to_capital dividend_amount dividend_reserve
         interim_settlement interim_profit interim_loss
         interim_treasury_disposal].
    destruct (goodwill_adjustment (goodwill i)) as [ e | ga ];
      cbn [Py.bind Py.ret]; [ split; reflexivity | ].
    cbn [Res.distributable_amount SRes.distributable_amount].
    split; f_equal; split_tests; lia.
Qed.

Lemma valuation_adjustments_negative_parts_witness :
  (exists r, App.calculation complex_case = inr r
     /\ SRes.valuation_adjustments r <= 0)
  /\ (exists r, calculate_distributable_amount complex_case = inr r
     /\ Res.valuation_adjustments r <= 0)
  /\ stored_amount (App.calculation (set_valuation (-1000000) 500 complex_case))
     = stored_amount (App.calculation complex_case).
Proof.
  pose proof (valuation_adjustments_negative_parts complex_case)
    as (Happ & Href & Hsame).
  split; [ | split ].
  - eexists. split; [ reflexivity | ]. apply (Happ _ eq_refl).
  - eexists. split; [ reflexivity | ]. apply (Href _ eq_refl).
  - apply (Hsame (-1000000) 500).
    + left. reflexivity.
    + right. cbn. lia.
Defined.

(** C6. The returned [interim_settlement_adjustments] is
    [interim_profit - interim_loss + interim_treasury_disposal] when the
    flag is set and 0 when it is not; and with the flag not set, replacing
    the three interim amounts by any others gives the same outcome, field
    for field. Stated for both calculations. *)
Theorem interim_amounts_only_under_flag (i : CalculationInput) :
  (forall r, App.calculation i = inr r ->
     SRes.interim_settlement_adjustments r
     = if interim_settlement i
       then interim_profit i - interim_loss i + interim_treasury_disposal i
       else 0)
  /\ (forall r, calculate_distributable_amount i = inr r ->
     Res.interim_settlement_adjustments r
     = if interim_settlement i
       then interim_profit i - interim_loss i + interim_treasury_disposal i
       else 0)
  /\ (interim_settlement i = false ->
      forall profit loss disposal,
        App.calculation (set_interim profit loss disposal i)
        = App.calculation i
        /\ calculate_distributable_amount (set_interim profit loss disposal i)
           = calculate_distributable_amount i).
Proof.
  split; [ | split ].
  - intros r H; returned H. reflexivity.
  - intros r H; returned H. reflexivity.
  - intros Hflag profit loss disposal.
    unfold App.calculation, calculate_distributable_amount, set_interim.
    cbn [capital_stock capital_reserve other_capital_surplus earned_reserve
         other_retained_earnings treasury_stock goodwill deferred_assets
         securities_valuation land_revaluation disposal_treasury_stock
         disposal_consideration canceled_treasury_stock capital_reduction
         reserve_reduction surplus_to_capital dividend_amount dividend_reserve
         interim_settlement interim_profit interim_loss
         interim_treasury_disposal].
    rewrite Hflag. split; reflexivity.
Qed.

Lemma interim_amounts_only_under_flag_witness :
  (exists r, App.calculation complex_case = inr r
     /\ SRes.interim_settlement_adjustments r = 3300000)
  /\ (exists r, calculate_distributable_amount complex_case = inr r
     /\ Res.interim_settlement_adjustments r = 3300000)
  /\ App.calculation (set_interim 7 8 9 basic_case)
     = App.calculation basic_case
  /\ calculate_distributable_amount (set_interim 7 8 9 basic_case)
     = calculate_distributable_amount basic_case.
Proof.
  split; [ | split ].
  - eexists. split; [ reflexivity | ].
    apply (proj1 (interim_amounts_only_under_flag complex_case) _ eq_refl).
  - eexists. split; [ reflexivity | ].
    apply (proj1 (proj2 (interim_amounts_only_under_flag complex_case))
             _ eq_refl).
  - apply (proj2 (proj2 (interim_amounts_only_under_flag basic_case))
             eq_refl 7 8 9).
Defined.

(** The four steps of the goodwill deduction over the value the code
    computes. For goodwill and deferred assets that are not negative, let
    [gh] be the value of [math.floor(goodwill / 2)], [total] be [gh] plus
    the deferred assets and [crt] the sum of capital stock, capital reserve
    and earned reserve. Both calculations return, with the same deduction:
    0 when [total <= crt] (so also at [total = crt]); [total - crt] when
    that fails and [total <= crt + other_capital_surplus]; [total - crt]
    again when that fails too and [gh <= crt + other_capital_surplus]; and
    [other_capital_surplus + deferred_assets] otherwise. Below [2^53],
    [gh] is the exact floor of half the goodwill. *)
Theorem goodwill_deduction_ladder (i : CalculationInput) (gh : Z) :
  0 <= goodwill i -> 0 <= deferred_assets i ->
  goodwill_adjustment (goodwill i) = inr gh ->
  let total := gh + deferred_assets i in
  let crt := capital_stock i + capital_reserve i + earned_reserve i in
  let ocs := other_capital_surplus i in
  exists ra rt,
    App.calculation i = inr ra
    /\ calculate_distributable_amount i = inr rt
    /\ Res.goodwill_deferred_deduction rt
       = SRes.goodwill_deferred_deduction ra
    /\ (total <= crt -> SRes.goodwill_deferred_deduction ra = 0)
    /\ (total = crt -> SRes.goodwill_deferred_deduction ra = 0)
    /\ (crt < total -> total <= crt + ocs ->
        SRes.goodwill_deferred_deduction ra = total - crt)
    /\ (crt < total -> crt + ocs < total -> gh <= crt + ocs ->
        SRes.goodwill_deferred_deduction ra = total - crt)
    /\ (crt < total -> crt + ocs < total -> crt + ocs < gh ->
        SRes.goodwill_deferred_deduction ra = ocs + deferred_assets i)
    /\ (goodwill i < 2 ^ 53 -> gh = goodwill i / 2).
Proof.
  intros Hg Hd Hgh total crt ocs.
  unfold App.calculation, calculate_distributable_amount.
  rewrite Hgh. cbn [Py.bind Py.ret].
  do 2 eexists. split; [ reflexivity | ]. split; [ reflexivity | ].
  cbn [Res.goodwill_deferred_deduction SRes.goodwill_deferred_deduction].
  subst total crt ocs.
  split; [ reflexivity | ].
  repeat split; intros; try (split_tests; lia).
  assert (Hex : goodwill_adjustment (goodwill i) = inr (goodwill i / 2))
    by (apply goodwill_adjustment_exact; lia).
  rewrite Hgh in Hex. apply inr_inj in Hex. exact Hex.
Qed.

Lemma goodwill_deduction_ladder_witness :
  exists ra rt,
    App.calculation goodwill_case4 = inr ra
    /\ calculate_distributable_amount goodwill_case4 = inr rt
    /\ Res.goodwill_deferred_deduction rt = 13000000
    /\ SRes.goodwill_deferred_deduction ra = 13000000.
Proof.
  destruct (goodwill_deduction_ladder goodwill_case4 25000000)
    as (ra & rt & Ha & Ht & Heq & _ & _ & _ & _ & Hlast & _).
  - cbn. lia.
  - cbn. lia.
  - reflexivity.
  - exists ra, rt. split; [ exact Ha | ]. split; [ exact Ht | ].
    assert (Hd : SRes.goodwill_deferred_deduction ra = 13000000)
      by (apply Hlast; cbn; lia).
    split; [ rewrite Heq; exact Hd | exact Hd ].
Defined.

(** C2. The ladder over the exact half breaks at the first boundary: at
    goodwill [2^53 + 3] against capital stock [2^52 + 1], with no deferred
    assets, goodwill and deferred assets are not negative and the floor of
    half the goodwill plus the deferred assets equals the capital total,
    where the deduction is to be 0; both calculations return 1, because
    [math.floor(goodwill / 2)] is one more than the floor of the half. *)
Theorem ladder_boundary_broken_by_rounding :
  0 <= goodwill rounding_case
  /\ 0 <= deferred_assets rounding_case
  /\ goodwill rounding_case / 2 + deferred_assets rounding_case
     = capital_stock rounding_case + capital_reserve rounding_case
       + earned_reserve rounding_case
  /\ (exists r, calculate_distributable_amount rounding_case = inr r
        /\ Res.goodwill_deferred_deduction r = 1)
  /\ (exists r, App.calculation rounding_case = inr r
        /\ SRes.goodwill_deferred_deduction r = 1).
Proof.
  split; [ cbn; lia | ].
  split; [ cbn; lia | ].
  split; [ vm_compute; reflexivity | ].
  split; eexists; (split; [ vm_compute; reflexivity | reflexivity ]).
Qed.

(** C7. [math.floor(goodwill / 2)] at [goodwill = 2^53 + 3]: the quotient
    is rounded to binary64 before the floor, which gives
    4503599627370498, one more than the exact floor division
    4503599627370497; the returned deduction is then 1 where the exact
    half gives 0. *)
Theorem goodwill_half_rounds_above_2p53 :
  goodwill_adjustment 9007199254740995 = inr 4503599627370498
  /\ Py.int_floordiv_2 9007199254740995 = 4503599627370497
  /\ (exists r, calculate_distributable_amount rounding_case = inr r
        /\ Res.goodwill_deferred_deduction r = 1
        /\ Res.distributable_amount r = 0)
  /\ (exists r, App.calculation rounding_case = inr r
        /\ SRes.goodwill_deferred_deduction r = 1
        /\ SRes.distributable_amount r = 0).
Proof.
  split; [ vm_compute; reflexivity | ].
  split; [ vm_compute; reflexivity | ].
  split; eexists; (split; [ vm_compute; reflexivity | ]);
    split; reflexivity.
Qed.

(** C8. The calculation is not total: at [goodwill = 2^1025] the true
    division raises [OverflowError] and no dictionary is returned, in
    either calculation. *)
Theorem huge_goodwill_raises :
  calculate_distributable_amount (set_goodwill (2 ^ 1025) defaults)
  = inl Py.OverflowError
  /\ App.calculation (set_goodwill (2 ^ 1025) defaults)
     = inl Py.OverflowError.
Proof.
  split; vm_compute; reflexivity.
Qed.

(** *** The statement-level programs compute what the functions compute *)

Ltac exec_step :=
  cbv [Exec.bind Exec.ret Exec.assign Exec.var Exec.cond Exec.lit Exec.add
       Exec.sub Exec.neg Exec.abs Exec.le Exec.lt Exec.floor_of_half
       Exec.lift Exec.if_else Exec.pass Exec.over Exec.inputs
       Exec.bind_name Exec.as_int Exec.truth Exec.outcome Exec.raised
       Exec.press String.eqb Ascii.eqb Bool.eqb Py.bind Py.ret].

(** Run the code on the left as far as it goes, then split on the test or
    on the rounding it waits for, and go on. *)
Ltac exec_run :=
  exec_step;
  repeat (lazymatch goal with
          | |- ?L = _ =>
              match L with
              | context [ if ?c then _ else _ ] => destruct c
              | context [ goodwill_adjustment ?g ] =>
                  destruct (goodwill_adjustment g)
              end
          end; exec_step).

(** Whatever else the namespace holds, the body of the function finds
    every name it uses, and returns what [calculate_distributable_amount]
    returns. *)
Lemma call_runs_the_function
    (i : CalculationInput) (leftover : Exec.namespace) :
  Exec.call i leftover = Exec.raised (calculate_distributable_amount i).
Proof.
  unfold Exec.call, Exec.calculate_distributable_amount,
    calculate_distributable_amount, min_net_assets.
  exec_run; reflexivity.
Qed.

(** The same for the block of [app.py] and the session it writes. *)
Lemma press_runs_the_block
    (i : CalculationInput) (rest : Exec.namespace)
    (st : App.session_state) :
  Exec.press (Exec.over (Exec.inputs i) rest) st
  = Exec.raised (App.calc_button i st).
Proof.
  unfold Exec.press, Exec.calc_button, App.calc_button, App.calculation,
    min_net_assets.
  exec_run; reflexivity.
Qed.

(** C9. No hidden state. Run statement by statement over a namespace,
    the body of [calculate_distributable_amount] gives the same outcome
    for the same arguments whatever else the namespace holds (values left
    by earlier calls included), and that outcome is the one of the
    function; the block of [app.py] gives the same session for the same
    input variables whatever the other globals of the script and whatever
    the session before, and that session is the one [App.calc_button]
    gives. No name is used before it is bound. *)
Theorem outcome_depends_on_inputs_alone (i : CalculationInput) :
  (forall l1 l2 : Exec.namespace, Exec.call i l1 = Exec.call i l2)
  /\ (forall l : Exec.namespace,
        Exec.call i l = Exec.raised (calculate_distributable_amount i))
  /\ (forall (r1 r2 : Exec.namespace) (s1 s2 : App.session_state),
        Exec.press (Exec.over (Exec.inputs i) r1) s1
        = Exec.press (Exec.over (Exec.inputs i) r2) s2)
  /\ (forall (r : Exec.namespace) (s : App.session_state),
        Exec.press (Exec.over (Exec.inputs i) r) s
        = Exec.raised (App.calc_button i s)).
Proof.
  split; [ | split; [ | split ] ].
  - intros l1 l2. rewrite !call_runs_the_function. reflexivity.
  - intros l. apply call_runs_the_function.
  - intros r1 r2 s1 s2. rewrite !press_runs_the_block. reflexivity.
  - intros r s. apply press_runs_the_block.
Qed.

(** C10. The two calculations side by side: for every input either both
    raise the same exception or both return, and then the distributable
    amount of [test.py] is that of [app.py] plus [disposal_treasury_stock],
    so the two agree exactly when that input is 0. In [test.py] the
    distributable amount does not depend on [disposal_treasury_stock]. *)
Theorem reference_amount_is_app_amount_plus_disposal (i : CalculationInput) :
  match calculate_distributable_amount i, App.calculation i with
  | inr rt, inr ra =>
      Res.distributable_amount rt
      = SRes.distributable_amount ra + disposal_treasury_stock i
      /\ (Res.distributable_amount rt = SRes.distributable_amount ra
          <-> disposal_treasury_stock i = 0)
  | inl e1, inl e2 => e1 = e2
  | _, _ => False
  end
  /\ forall d,
       amount (calculate_distributable_amount
                 (set_disposal_treasury_stock d i))
       = amount (calculate_distributable_amount i).
Proof.
  split.
  - unfold calculate_distributable_amount, App.calculation.
    destruct (goodwill_adjustment (goodwill i)) as [ e | ga ];
      cbn [Py.bind Py.ret]; [ reflexivity | ].
    cbn [Res.distributable_amount SRes.distributable_amount].
    split; [ lia | split; intros; lia ].
  - intros d.
    unfold amount, calculate_distributable_amount,
      set_disposal_treasury_stock.
    cbn [capital_stock capital_reserve other_capital_surplus earned_reserve
         other_retained_earnings treasury_stock goodwill deferred_assets
         securities_valuation land_revaluation disposal_treasury_stock
         disposal_consideration canceled_treasury_stock capital_reduction
         reserve_reduction surplus_to_capital dividend_amount dividend_reserve
         interim_settlement interim_profit interim_loss
         interim_treasury_disposal].
    destruct (goodwill_adjustment (goodwill i)) as [ e | ga ];
      cbn [Py.bind Py.ret]; [ reflexivity | ].
    cbn [Res.distributable_amount]. f_equal. lia.
Qed.

(** The amounts of the reference scenario with disposed treasury stock:
    22,650,000 in [test.py] and 21,650,000 in [app.py]. *)
Example complex_case_amounts :
  amount (calculate_distributable_amount complex_case) = inr 22650000
  /\ stored_amount (App.calculation complex_case) = inr 21650000.
Proof. split; reflexivity. Qed.

(** ** Further properties of the calculation *)

(** X1. For deferred assets that are not negative and a sum
    [other_capital_surplus + deferred_assets] that is not negative, the
    four branches of the goodwill deduction are one clamp: with [gh] the
    value of [math.floor(goodwill / 2)], the deduction is the excess of
    [gh + deferred_assets] over capital stock plus the two reserves, cut
    off below at 0 and above at [other_capital_surplus + deferred_assets].
    So it lies between 0 and that cap, and it does not exceed
    [gh + deferred_assets] when the capital and [gh] are not negative.
    Both calculations return it. *)
Theorem goodwill_deduction_is_clamp (i : CalculationInput) (gh : Z) :
  0 <= deferred_assets i ->
  0 <= other_capital_surplus i + deferred_assets i ->
  goodwill_adjustment (goodwill i) = inr gh ->
  let total := gh + deferred_assets i in
  let crt := capital_stock i + capital_reserve i + earned_reserve i in
  let cap := other_capital_surplus i + deferred_assets i in
  exists ra rt,
    App.calculation i = inr ra
    /\ calculate_distributable_amount i = inr rt
    /\ SRes.goodwill_deferred_deduction ra = Z.max 0 (Z.min (total - crt) cap)
    /\ Res.goodwill_deferred_deduction rt = Z.max 0 (Z.min (total - crt) cap)
    /\ 0 <= SRes.goodwill_deferred_deduction ra <= cap
    /\ (0 <= crt -> 0 <= gh -> SRes.goodwill_deferred_deduction ra <= total).
Proof.
  intros Hd Hcap Hgh total crt cap.
  unfold App.calculation, calculate_distributable_amount.
  rewrite Hgh. cbn [Py.bind Py.ret].
  do 2 eexists. split; [ reflexivity | ]. split; [ reflexivity | ].
  cbn [Res.goodwill_deferred_deduction SRes.goodwill_deferred_deduction].
  subst total crt cap.
  repeat split; intros; split_tests; lia.
Qed.

Lemma goodwill_deduction_is_clamp_witness :
  exists ra rt,
    App.calculation goodwill_case4 = inr ra
    /\ calculate_distributable_amount goodwill_case4 = inr rt
    /\ SRes.goodwill_deferred_deduction ra
       = Z.max 0 (Z.min (25000000 + 10000000 - 17000000) 13000000)
    /\ Res.goodwill_deferred_deduction rt = 13000000.
Proof.
  destruct (goodwill_deduction_is_clamp goodwill_case4 25000000)
    as (ra & rt & Ha & Ht & Hda & Hdt & _).
  - cbn. lia.
  - cbn. lia.
  - reflexivity.
  - exists ra, rt. split; [ exact Ha | ]. split; [ exact Ht | ].
    split; [ exact Hda | exact Hdt ].
Defined.

(** X2. The disposal consideration cancels: it enters
    [treasury_stock_adjustments] with a plus and
    [additional_treasury_adjustments] with a minus, so replacing it by any
    other value leaves the distributable amount (or the exception raised)
    as it was, in both calculations. *)
Theorem disposal_consideration_cancels (i : CalculationInput) (v : Z) :
  stored_amount (App.calculation (set_disposal_consideration v i))
  = stored_amount (App.calculation i)
  /\ amount (calculate_distributable_amount (set_disposal_consideration v i))
     = amount (calculate_distributable_amount i).
Proof.
  unfold stored_amount, amount, App.calculation,
    calculate_distributable_amount, set_disposal_consideration.
  cbn [capital_stock capital_reserve other_capital_surplus earned_reserve
       other_retained_earnings treasury_stock goodwill deferred_assets
       securities_valuation land_revaluation disposal_treasury_stock
       disposal_consideration canceled_treasury_stock capital_reduction
       reserve_reduction surplus_to_capital dividend_amount dividend_reserve
       interim_settlement interim_profit interim_loss
       interim_treasury_disposal].
  destruct (goodwill_adjustment (goodwill i)) as [ e | ga ];
    cbn [Py.bind Py.ret]; [ split; reflexivity | ].
  cbn [Res.distributable_amount SRes.distributable_amount].
  split; f_equal; lia.
Qed.

(** The bounds of the widgets survive the reading of the inputs. *)
Lemma read_inputs_bounds (mode : calculation_mode) (w : CalculationInput) :
  widget_bounds w -> widget_bounds (read_inputs mode w).
Proof.
  unfold widget_bounds. intros Hw.
  destruct mode; cbn; destruct (interim_settlement w); intuition lia.
Qed.

(** X3. What the lower bounds of the widgets give to the dictionary the
    page stores, in either mode: the book value of treasury stock and the
    goodwill deduction are not negative, the disposal, dividend and
    valuation terms are not positive, and the distributable amount is at
    most the surplus plus the reductions of capital and reserves plus the
    interim adjustment; in the basic mode it is at most the surplus. *)
Theorem widget_bounds_cap_the_amount
    (mode : calculation_mode) (w : CalculationInput) (r : SRes.t) :
  widget_bounds w ->
  App.calculation (read_inputs mode w) = inr r ->
  0 <= SRes.treasury_stock_abs r
  /\ SRes.additional_treasury_adjustments r <= 0
  /\ SRes.treasury_stock_adjustments r
     + SRes.additional_treasury_adjustments r <= 0
  /\ SRes.dividend_adjustments r <= 0
  /\ 0 <= SRes.goodwill_deferred_deduction r
  /\ SRes.valuation_adjustments r <= 0
  /\ 0 <= SRes.net_assets_adjustment r
  /\ SRes.distributable_amount r
     <= SRes.surplus_amount r + capital_reduction (read_inputs mode w)
        + reserve_reduction (read_inputs mode w)
        + SRes.interim_settlement_adjustments r
  /\ (mode = BasicMode ->
      SRes.distributable_amount r <= SRes.surplus_amount r).
Proof.
  intros Hw H.
  apply (read_inputs_bounds mode) in Hw.
  assert (Hbasic : mode = BasicMode ->
            capital_reduction (read_inputs mode w) = 0
            /\ reserve_reduction (read_inputs mode w) = 0
            /\ interim_settlement (read_inputs mode w) = false)
    by (intros ->; repeat split).
  revert Hw Hbasic H. generalize (read_inputs mode w). intros i Hw Hbasic H.
  unfold widget_bounds in Hw.
  returned H.
  repeat split; try (split_tests; lia).
  intros Hm. destruct (Hbasic Hm) as (Hc & Hr & Hi). rewrite Hi.
  split_tests; lia.
Qed.

Lemma widget_bounds_cap_the_amount_witness :
  widget_bounds complex_case
  /\ exists r,
       App.calculation (read_inputs DetailedMode complex_case) = inr r
       /\ 0 <= SRes.goodwill_deferred_deduction r
       /\ SRes.distributable_amount r
          <= SRes.surplus_amount r + 2000000 + 1000000
             + SRes.interim_settlement_adjustments r.
Proof.
  assert (Hw : widget_bounds complex_case)
    by (unfold widget_bounds; cbn; repeat split; lia).
  split; [ exact Hw | ].
  eexists. split; [ reflexivity | ].
  destruct (widget_bounds_cap_the_amount DetailedMode complex_case _
              Hw eq_refl) as (_ & _ & _ & _ & Hded & _ & _ & Hcap & _).
  split; [ exact Hded | exact Hcap ].
Defined.

(** X4. In the basic mode the page and the reference function agree on
    every term: on the variables the page holds then, either both raise
    the same exception or both return the same eleven values, with the
    five terms of the detailed mode at 0. *)
Theorem basic_mode_agrees_with_reference (w : CalculationInput) :
  match calculate_distributable_amount (read_inputs BasicMode w),
        App.calculation (read_inputs BasicMode w) with
  | inr rt, inr ra =>
      rt = Res.mk (SRes.surplus_amount ra)
                  (SRes.treasury_stock_adjustments ra)
                  (SRes.capital_reserve_adjustments ra)
                  (SRes.dividend_adjustments ra)
                  (SRes.treasury_stock_abs ra)
                  (SRes.additional_treasury_adjustments ra)
                  (SRes.interim_settlement_adjustments ra)
                  (SRes.goodwill_deferred_deduction ra)
                  (SRes.valuation_adjustments ra)
                  (SRes.net_assets_adjustment ra)
                  (SRes.distributable_amount ra)
      /\ SRes.treasury_stock_adjustments ra = 0
      /\ SRes.capital_reserve_adjustments ra = 0
      /\ SRes.dividend_adjustments ra = 0
      /\ SRes.additional_treasury_adjustments ra = 0
      /\ SRes.interim_settlement_adjustments ra = 0
      /\ SRes.distributable_amount ra
         = SRes.surplus_amount ra - SRes.treasury_stock_abs ra
           - SRes.goodwill_deferred_deduction ra
           + SRes.valuation_adjustments ra
           - SRes.net_assets_adjustment ra
  | inl e1, inl e2 => e1 = e2
  | _, _ => False
  end.
Proof.
  unfold calculate_distributable_amount, App.calculation, read_inputs.
  cbn [capital_stock capital_reserve other_capital_surplus earned_reserve
       other_retained_earnings treasury_stock goodwill deferred_assets
       securities_valuation land_revaluation disposal_treasury_stock
       disposal_consideration canceled_treasury_stock capital_reduction
       reserve_reduction surplus_to_capital dividend_amount dividend_reserve
       interim_settlement interim_profit interim_loss
       interim_treasury_disposal].
  destruct (goodwill_adjustment (goodwill w)) as [ e | ga ];
    cbn [Py.bind Py.ret]; [ reflexivity | ].
  cbn [SRes.surplus_amount SRes.treasury_stock_adjustments
       SRes.capital_reserve_adjustments SRes.dividend_adjustments
       SRes.treasury_stock_abs SRes.additional_treasury_adjustments
       SRes.interim_settlement_adjustments SRes.goodwill_deferred_deduction
       SRes.valuation_adjustments SRes.net_assets_adjustment
       SRes.distributable_amount].
  split; [ f_equal; lia | ].
  repeat split; lia.
Qed.

(** X5. Below the floor of the net assets the other retained earnings
    count twice: if the net assets are at most 3,000,000 before and after
    a change of [other_retained_earnings] by [d], the distributable amount
    changes by [2 * d], once through the surplus and once through the
    floor adjustment; if they are at least 3,000,000 before and after, it
    changes by [d]. Stated for both calculations. *)
Theorem retained_earnings_count_twice_below_floor
    (i : CalculationInput) (d : Z) :
  let i' := set_other_retained_earnings (other_retained_earnings i + d) i in
  (forall r r', App.calculation i = inr r -> App.calculation i' = inr r' ->
     (net_assets_of i <= 3000000 -> net_assets_of i + d <= 3000000 ->
      SRes.distributable_amount r' = SRes.distributable_amount r + 2 * d)
     /\ (3000000 <= net_assets_of i -> 3000000 <= net_assets_of i + d ->
         SRes.distributable_amount r' = SRes.distributable_amount r + d))
  /\ (forall r r', calculate_distributable_amount i = inr r ->
        calculate_distributable_amount i' = inr r' ->
     (net_assets_of i <= 3000000 -> net_assets_of i + d <= 3000000 ->
      Res.distributable_amount r' = Res.distributable_amount r + 2 * d)
     /\ (3000000 <= net_assets_of i -> 3000000 <= net_assets_of i + d ->
         Res.distributable_amount r' = Res.distributable_amount r + d)).
Proof.
  intros i'. subst i'.
  split; intros r r' H H'.
  - unfold App.calculation, set_other_retained_earnings in H'.
    cbn [capital_stock capital_reserve other_capital_surplus earned_reserve
         other_retained_earnings treasury_stock goodwill deferred_assets
         securities_valuation land_revaluation disposal_treasury_stock
         disposal_consideration canceled_treasury_stock capital_reduction
         reserve_reduction surplus_to_capital dividend_amount dividend_reserve
         interim_settlement interim_profit interim_loss
         interim_treasury_disposal] in H'.
    returned H. cbn [Py.bind Py.ret] in H'.
    apply inr_inj in H'. subst r'. cbn [SRes.distributable_amount].
    unfold net_assets_of. split; intros; split_tests; lia.
  - unfold calculate_distributable_amount, set_other_retained_earnings in H'.
    cbn [capital_stock capital_reserve other_capital_surplus earned_reserve
         other_retained_earnings treasury_stock goodwill deferred_assets
         securities_valuation land_revaluation disposal_treasury_stock
         disposal_consideration canceled_treasury_stock capital_reduction
         reserve_reduction surplus_to_capital dividend_amount dividend_reserve
         interim_settlement interim_profit interim_loss
         interim_treasury_disposal] in H'.
    returned H. cbn [Py.bind Py.ret] in H'.
    apply inr_inj in H'. subst r'. cbn [Res.distributable_amount].
    unfold net_assets_of. split; intros; split_tests; lia.
Qed.

Lemma retained_earnings_count_twice_below_floor_witness :
  exists r r',
    App.calculation below_floor_case = inr r
    /\ App.calculation
         (set_other_retained_earnings (0 + -5) below_floor_case) = inr r'
    /\ SRes.distributable_amount r' = SRes.distributable_amount r + 2 * -5.
Proof.
  do 2 eexists. split; [ reflexivity | ]. split; [ reflexivity | ].
  apply (proj1 (retained_earnings_count_twice_below_floor
                  below_floor_case (-5)) _ _ eq_refl eq_refl);
    cbn; lia.
Defined.

(** ** Properties of the graph tab *)

(** What the session can hold: the placeholder, or the dictionary of a
    calculation that returned. *)
Lemma presses_results (h : list CalculationInput) (st : App.session_state) :
  App.results (App.presses h st) = App.results st
  \/ exists i r, In i h /\ App.calculation i = inr r
                 /\ App.results (App.presses h st) = App.Stored r.
Proof.
  revert st. induction h as [ | i h IH ]; intros st; [ left; reflexivity | ].
  cbn [App.presses]. unfold App.calc_button.
  destruct (App.calculation i) as [ e | r ] eqn:Hi; cbn [Py.bind Py.ret].
  - destruct (IH st) as [ Hsame | (j & r & Hj & Hr & Hst) ];
      [ left; exact Hsame | right ].
    exists j, r. split; [ right; exact Hj | split; assumption ].
  - destruct (IH (App.mkSession (App.Stored r)))
      as [ Hsame | (j & r' & Hj & Hr & Hst) ]; right.
    + exists i, r. split; [ left; reflexivity | split; assumption ].
    + exists j, r'. split; [ right; exact Hj | split; assumption ].
Qed.

(** X6. The waterfall chart closes: whatever was pressed before, the
    running total the loop accumulates from the surplus and the nine
    relative bars is the stored distributable amount, which is also what
    the last bar is set to; the chart has one absolute bar, nine relative
    bars and one total bar, as many as it has labels. *)
Theorem waterfall_total_is_distributable_amount
    (h : list CalculationInput) :
  let s := App.results (App.presses h App.initial) in
  let w := View.waterfall_chart s in
  View.final_cumulative w = View.get SRes.distributable_amount s
  /\ nth 10 (View.chart_values w) None
     = Some (View.get SRes.distributable_amount s)
  /\ ~ In None (View.chart_values w)
  /\ View.chart_measure w
     = View.absolute :: repeat View.relative 9 ++ [View.total]
  /\ List.length (View.steps w) = 11%nat
  /\ List.length (View.chart_values w) = 11%nat.
Proof.
  intros s w. subst w s.
  destruct (presses_results h App.initial)
    as [ -> | (i & r & _ & Hr & ->) ].
  - cbn. repeat split; try reflexivity; intuition discriminate.
  - returned Hr. unfold View.waterfall_chart.
    cbn [View.get SRes.surplus_amount SRes.treasury_stock_adjustments
         SRes.capital_reserve_adjustments SRes.dividend_adjustments
         SRes.treasury_stock_abs SRes.additional_treasury_adjustments
         SRes.interim_settlement_adjustments SRes.goodwill_deferred_deduction
         SRes.valuation_adjustments SRes.net_assets_adjustment
         SRes.distributable_amount].
    cbn [List.length Nat.sub seq View.accumulate nth View.assign app repeat
         View.final_cumulative View.chart_values View.chart_measure
         View.steps In].
    repeat split; try reflexivity; try lia; intuition discriminate.
Qed.

(** The slices of the two pie charts: the positive values as they are, the
    negative ones by their magnitude; together they carry the signed sum
    of the dictionary. *)
Lemma pie_values_sum (c : list (string * Z)) :
  View.sum (View.values (View.positive_components c))
  - View.sum (View.values (View.negative_components c))
  = View.sum (View.values c).
Proof.
  unfold View.positive_components, View.negative_components, View.values,
    View.sum.
  induction c as [ | [k v] c IH ]; [ reflexivity | ].
  cbn [filter map fold_right snd fst].
  destruct (Z.gtb_spec v 0); destruct (Z.ltb_spec v 0);
    cbn [map fold_right snd fst]; unfold Py.abs in *; lia.
Qed.

Lemma pie_values_positive (c : list (string * Z)) :
  Forall (fun v => 0 < v) (View.values (View.positive_components c))
  /\ Forall (fun v => 0 < v) (View.values (View.negative_components c)).
Proof.
  unfold View.positive_components, View.negative_components, View.values.
  induction c as [ | [k v] c [IHp IHn] ]; [ split; constructor | ].
  cbn [filter map snd fst].
  destruct (Z.gtb_spec v 0); destruct (Z.ltb_spec v 0);
    cbn [map snd fst]; split; try assumption;
    constructor; try assumption; unfold Py.abs; lia.
Qed.

(** X7. The two pie charts, whatever was pressed before: every slice has
    a positive value, and the slices of the first chart minus those of the
    second add up to the stored distributable amount less the three
    adjustments the charts leave out: [treasury_stock_adjustments],
    [capital_reserve_adjustments] and [dividend_adjustments]. *)
Theorem pie_charts_leave_out_three_adjustments
    (h : list CalculationInput) :
  let s := App.results (App.presses h App.initial) in
  let c := View.components s in
  View.sum (View.values (View.positive_components c))
  - View.sum (View.values (View.negative_components c))
  = View.get SRes.distributable_amount s
    - (View.get SRes.treasury_stock_adjustments s
       + View.get SRes.capital_reserve_adjustments s
       + View.get SRes.dividend_adjustments s)
  /\ Forall (fun v => 0 < v) (View.values (View.positive_components c))
  /\ Forall (fun v => 0 < v) (View.values (View.negative_components c)).
Proof.
  intros s c. split; [ | apply pie_values_positive ].
  rewrite pie_values_sum. subst c s.
  destruct (presses_results h App.initial)
    as [ -> | (i & r & _ & Hr & ->) ].
  - reflexivity.
  - returned Hr.
    cbn [View.components View.values View.sum map fold_right snd View.get
         SRes.surplus_amount SRes.treasury_stock_adjustments
         SRes.capital_reserve_adjustments SRes.dividend_adjustments
         SRes.treasury_stock_abs SRes.additional_treasury_adjustments
         SRes.interim_settlement_adjustments SRes.goodwill_deferred_deduction
         SRes.valuation_adjustments SRes.net_assets_adjustment
         SRes.distributable_amount SRes.other_capital_surplus
         SRes.other_retained_earnings].
    lia.
Qed.

(** A rounded quotient keeps the sign of the dividend. *)
Lemma binary_round_sign (s : bool) (m : positive) (e : Z) :
  match binary_round Py.prec Py.emax s m e with
  | S754_zero s' | S754_infinity s' | S754_finite s' _ _ => s' = s
  | S754_nan => True
  end.
Proof.
  unfold binary_round, binary_round_aux.
  destruct (shl_align _ _ _) as [mz ez].
  destruct (shr_fexp _ _ _ _ _) as [mrs' e'].
  destruct (shr_fexp _ _ _ _ _) as [mrs'' e''].
  destruct (shr_m mrs''); [ reflexivity | | exact I ].
  destruct (e'' <=? Py.emax - Py.prec); reflexivity.
Qed.

(** On goodwill that is not negative, [int(goodwill / 2)] of the graph tab
    and [math.floor(goodwill / 2)] of the calculation are the same. *)
Lemma int_is_floor_on_nonnegative (g : Z) :
  0 <= g ->
  (q <- Py.int_truediv_2 g ;; View.int_of_float q) = goodwill_adjustment g.
Proof.
  intros Hg. unfold goodwill_adjustment, Py.int_truediv_2.
  destruct g as [ | p | p ]; [ reflexivity | | lia ].
  cbn [binary_normalize].
  pose proof (binary_round_sign false p (-1)) as Hs.
  destruct (binary_round Py.prec Py.emax false p (-1)) as [ s | s | | s m e ];
    try reflexivity.
  subst s. reflexivity.
Qed.

(** X8. The explanation under the goodwill chart agrees with the
    calculation: for goodwill that is not negative, the amount the
    selected pattern prints as the deduction is the stored
    [goodwill_deferred_deduction], the one the third bar shows. *)
Theorem goodwill_explanation_matches_deduction
    (i : CalculationInput) (r : SRes.t) :
  0 <= goodwill i ->
  App.calculation i = inr r ->
  exists e,
    View.goodwill_explanation (App.Stored r) = inr e
    /\ View.explained_deduction e = SRes.goodwill_deferred_deduction r
    /\ View.deduction_bar e = SRes.goodwill_deferred_deduction r.
Proof.
  intros Hg H. returned H.
  unfold View.goodwill_explanation.
  cbn [View.get SRes.goodwill SRes.deferred_assets
       SRes.goodwill_deferred_deduction SRes.capital_stock
       SRes.capital_reserve SRes.earned_reserve SRes.other_capital_surplus].
  pose proof (int_is_floor_on_nonnegative _ Hg) as Hint.
  rewrite Hga in Hint.
  destruct (Py.int_truediv_2 (goodwill i)) as [ e | q ];
    cbn [Py.bind] in Hint |- *; [ discriminate Hint | ].
  rewrite Hint. cbn [Py.bind].
  split_tests; eexists; (split; [ reflexivity | ]);
    cbn [View.explained_deduction View.deduction_bar]; split; lia.
Qed.

Lemma goodwill_explanation_matches_deduction_witness :
  exists r e,
    App.calculation goodwill_case4 = inr r
    /\ View.goodwill_explanation (App.Stored r) = inr e
    /\ View.explained_deduction e = SRes.goodwill_deferred_deduction r
    /\ SRes.goodwill_deferred_deduction r = 13000000.
Proof.
  eexists.
  destruct (goodwill_explanation_matches_deduction goodwill_case4 _
              ltac:(cbn; lia) eq_refl) as (e & He & Hd & _).
  exists e. split; [ reflexivity | ].
  split; [ exact He | ]. split; [ exact Hd | reflexivity ].
Defined.

(** ** The goodwill step within the exact range of binary64 *)

(** Unfold a calculation on an input built by a setter. *)
Ltac on_fields H :=
  unfold App.calculation, calculate_distributable_amount,
    set_goodwill, set_capital_stock in H;
  cbn [capital_stock capital_reserve other_capital_surplus earned_reserve
       other_retained_earnings treasury_stock goodwill deferred_assets
       securities_valuation land_revaluation disposal_treasury_stock
       disposal_consideration canceled_treasury_stock capital_reduction
       reserve_reduction surplus_to_capital dividend_amount dividend_reserve
       interim_settlement interim_profit interim_loss
       interim_treasury_disposal] in H.

(** X9. For goodwill of magnitude below [2^53], [math.floor(goodwill / 2)]
    is the exact floor of half the goodwill, and both calculations
    return. *)
Theorem goodwill_half_exact_below_2p53 (i : CalculationInput) :
  - 2 ^ 53 < goodwill i < 2 ^ 53 ->
  goodwill_adjustment (goodwill i) = inr (Py.int_floordiv_2 (goodwill i))
  /\ (exists r, App.calculation i = inr r)
  /\ (exists r, calculate_distributable_amount i = inr r).
Proof.
  intros Hg. split.
  - apply goodwill_adjustment_exact. exact Hg.
  - apply calculation_returns. exact Hg.
Qed.

Lemma goodwill_half_exact_below_2p53_witness :
  goodwill_adjustment (goodwill goodwill_case4) = inr 25000000
  /\ (exists r, App.calculation goodwill_case4 = inr r).
Proof.
  destruct (goodwill_half_exact_below_2p53 goodwill_case4) as (Hh & Hr & _).
  - cbn. lia.
  - split; [ exact Hh | exact Hr ].
Defined.

(** X10. More goodwill never raises the distributable amount: for
    deferred assets that are not negative and a sum
    [other_capital_surplus + deferred_assets] that is not negative,
    raising the goodwill from a value that is not negative to a larger one
    below [2^53] does not lower the deduction and does not raise the
    distributable amount, in both calculations. *)
Theorem more_goodwill_never_raises_the_amount
    (i : CalculationInput) (g : Z) :
  0 <= goodwill i <= g -> g < 2 ^ 53 ->
  0 <= deferred_assets i ->
  0 <= other_capital_surplus i + deferred_assets i ->
  (forall r r', App.calculation i = inr r ->
     App.calculation (set_goodwill g i) = inr r' ->
     SRes.goodwill_deferred_deduction r <= SRes.goodwill_deferred_deduction r'
     /\ SRes.distributable_amount r' <= SRes.distributable_amount r)
  /\ (forall r r', calculate_distributable_amount i = inr r ->
     calculate_distributable_amount (set_goodwill g i) = inr r' ->
     Res.goodwill_deferred_deduction r <= Res.goodwill_deferred_deduction r'
     /\ Res.distributable_amount r' <= Res.distributable_amount r).
Proof.
  intros Hg Hlt Hd Hcap.
  assert (Hhalf : goodwill i / 2 <= g / 2)
    by (apply Z.div_le_mono; lia).
  assert (H1 : goodwill_adjustment (goodwill i) = inr (goodwill i / 2))
    by (apply goodwill_adjustment_exact; lia).
  assert (H2 : goodwill_adjustment g = inr (g / 2))
    by (apply goodwill_adjustment_exact; lia).
  split; intros r r' H H'; on_fields H; on_fields H';
    rewrite H1 in H; rewrite H2 in H'; cbn [Py.bind Py.ret] in H, H';
    apply inr_inj in H; apply inr_inj in H'; subst r r';
    cbn [Res.goodwill_deferred_deduction Res.distributable_amount
         SRes.goodwill_deferred_deduction SRes.distributable_amount];
    split; split_tests; lia.
Qed.

Lemma more_goodwill_never_raises_the_amount_witness :
  exists r r',
    App.calculation basic_case = inr r
    /\ App.calculation (set_goodwill 50000000 basic_case) = inr r'
    /\ SRes.distributable_amount r' <= SRes.distributable_amount r.
Proof.
  do 2 eexists. split; [ reflexivity | ]. split; [ reflexivity | ].
  apply (proj1 (more_goodwill_never_raises_the_amount basic_case 50000000
                  ltac:(cbn; lia) ltac:(cbn; lia) ltac:(cbn; lia)
                  ltac:(cbn; lia)) _ _ eq_refl eq_refl).
Defined.

(** X11. More capital stock never lowers the distributable amount: under
    the same two conditions, raising [capital_stock] does not raise the
    goodwill deduction nor the floor adjustment, and does not lower the
    distributable amount, in both calculations. *)
Theorem more_capital_never_lowers_the_amount
    (i : CalculationInput) (c : Z) :
  capital_stock i <= c ->
  0 <= deferred_assets i ->
  0 <= other_capital_surplus i + deferred_assets i ->
  (forall r r', App.calculation i = inr r ->
     App.calculation (set_capital_stock c i) = inr r' ->
     SRes.goodwill_deferred_deduction r' <= SRes.goodwill_deferred_deduction r
     /\ SRes.net_assets_adjustment r' <= SRes.net_assets_adjustment r
     /\ SRes.distributable_amount r <= SRes.distributable_amount r')
  /\ (forall r r', calculate_distributable_amount i = inr r ->
     calculate_distributable_amount (set_capital_stock c i) = inr r' ->
     Res.goodwill_deferred_deduction r' <= Res.goodwill_deferred_deduction r
     /\ Res.net_assets_adjustment r' <= Res.net_assets_adjustment r
     /\ Res.distributable_amount r <= Res.distributable_amount r').
Proof.
  intros Hc Hd Hcap.
  split; intros r r' H H'; on_fields H'; returned H;
    cbn [Py.bind Py.ret] in H'; apply inr_inj in H'; subst r';
    cbn [Res.goodwill_deferred_deduction Res.distributable_amount
         Res.net_assets_adjustment
         SRes.goodwill_deferred_deduction SRes.distributable_amount
         SRes.net_assets_adjustment];
    repeat split; split_tests; lia.
Qed.

Lemma more_capital_never_lowers_the_amount_witness :
  exists r r',
    App.calculation goodwill_case4 = inr r
    /\ App.calculation (set_capital_stock 30000000 goodwill_case4) = inr r'
    /\ SRes.distributable_amount r <= SRes.distributable_amount r'.
Proof.
  do 2 eexists. split; [ reflexivity | ]. split; [ reflexivity | ].
  apply (proj1 (more_capital_never_lowers_the_amount goodwill_case4 30000000
                  ltac:(cbn; lia) ltac:(cbn; lia) ltac:(cbn; lia))
           _ _ eq_refl eq_refl).
Defined.
